(** * HSE Digital Python SDK: session, dispatch and error classification

    A shallow embedding of [sdks/python/hse_digital/client.py],
    [exceptions.py] and the [AuthTokens] record of [types.py], with the
    properties of the session / request-dispatch layer proved about it.

    Layout: Python values, the part of the [requests] library the client
    touches, the exception hierarchy, a small state-and-exception monad,
    the client itself, and then the theorems. *)

From Stdlib Require Import String Ascii List ZArith Bool Lia.
From Stdlib Require Import DecimalString.
Import ListNotations.

Set Warnings "-register-all".

Local Open Scope string_scope.
Local Open Scope Z_scope.

(** ** Python values *)

(** The values that move between the client and the server are decoded
    JSON documents and the strings, integers and [None] the caller passes
    in.  JSON numbers are integers here (no claim looks at a float), and a
    string is its sequence of bytes.  A [dict] is an association list in
    insertion order; lookup takes the first binding of a key. *)
Inductive value : Type :=
| VNone
| VBool (b : bool)
| VInt (z : Z)
| VStr (s : string)
| VList (l : list value)
| VDict (d : list (string * value)).

(** Python truthiness, as used by [if self.refresh_token:] and friends. *)
Definition truthy (v : value) : bool :=
  match v with
  | VNone => false
  | VBool b => b
  | VInt z => negb (z =? 0)
  | VStr s => negb (s =? "")%string
  | VList l => match l with [] => false | _ => true end
  | VDict d => match d with [] => false | _ => true end
  end.

Fixpoint dict_get (d : list (string * value)) (k : string) : option value :=
  match d with
  | [] => None
  | (k', v) :: d' => if (k' =? k)%string then Some v else dict_get d' k
  end.

(** [d[k] = v]: overwrite in place, or append a new key at the end. *)
Fixpoint dict_set (d : list (string * value)) (k : string) (v : value)
  : list (string * value) :=
  match d with
  | [] => [(k, v)]
  | (k', v') :: d' =>
      if (k' =? k)%string then (k, v) :: d' else (k', v') :: dict_set d' k v
  end.

(** *** [str()] and [repr()], for the f-strings of the client *)

Definition dquote : ascii := ascii_of_nat 34.
Definition squote : ascii := ascii_of_nat 39.
Definition backslash : ascii := ascii_of_nat 92.

Fixpoint contains (c : ascii) (s : string) : bool :=
  match s with
  | EmptyString => false
  | String c' s' => (c' =? c)%char || contains c s'
  end.

Definition hex_digit (n : nat) : ascii :=
  ascii_of_nat (if Nat.ltb n 10 then 48 + n else 87 + n).

(** One character of a [repr]'d string delimited by [q].  Bytes above 127
    are parts of encoded code points and are kept, as Python keeps
    printable non-ASCII text; the non-printable code points above U+007F,
    which Python writes as escapes, are not told apart here. *)
Definition repr_char (q c : ascii) : string :=
  let n := nat_of_ascii c in
  if (c =? backslash)%char then String backslash (String backslash "")
  else if (c =? q)%char then String backslash (String q "")
  else if Nat.eqb n 9 then String backslash "t"
  else if Nat.eqb n 10 then String backslash "n"
  else if Nat.eqb n 13 then String backslash "r"
  else if Nat.ltb n 32 || Nat.eqb n 127 then
    String backslash
      (String "x" (String (hex_digit (Nat.div n 16))
                     (String (hex_digit (Nat.modulo n 16)) "")))
  else String c "".

Fixpoint repr_chars (q : ascii) (s : string) : string :=
  match s with
  | EmptyString => EmptyString
  | String c s' => repr_char q c ++ repr_chars q s'
  end.

(** Python delimits with single quotes unless the text has a single quote
    and no double quote. *)
Definition repr_str (s : string) : string :=
  let q := if contains squote s && negb (contains dquote s)
           then dquote else squote in
  String q (repr_chars q s ++ String q "").

Definition str_of_Z (z : Z) : string := NilZero.string_of_int (Z.to_int z).

Fixpoint join (sep : string) (l : list string) : string :=
  match l with
  | [] => ""
  | [x] => x
  | x :: l' => x ++ sep ++ join sep l'
  end.

Fixpoint py_repr (v : value) : string :=
  match v with
  | VNone => "None"
  | VBool true => "True"
  | VBool false => "False"
  | VInt z => str_of_Z z
  | VStr s => repr_str s
  | VList l => "[" ++ join ", " (map py_repr l) ++ "]"
  | VDict d =>
      "{" ++ join ", "
        (map (fun kv => repr_str (fst kv) ++ ": " ++ py_repr (snd kv)) d)
      ++ "}"
  end.

(** [str(v)], which is what [f"{v}"] inserts. *)
Definition py_str (v : value) : string :=
  match v with
  | VStr s => s
  | _ => py_repr v
  end.

(** [s.rstrip("/")] *)
Fixpoint rstrip_slash (s : string) : string :=
  match s with
  | EmptyString => EmptyString
  | String c s' =>
      match rstrip_slash s' with
      | EmptyString => if (c =? "/")%char then EmptyString else String c EmptyString
      | r => String c r
      end
  end.

(** ** types.py *)

Module types.

(** [@dataclass class AuthTokens]: the annotations say [str], the
    dataclass stores whatever it is given. *)
Record AuthTokens : Type := mkAuthTokens {
  access_token : value;
  refresh_token : value
}.

End types.

(** ** exceptions.py *)

Module exceptions.

(** The class of an [HSEAPIError] instance: the base class itself
    ([Generic]) or one of its five subclasses. *)
Inductive ErrorKind : Type :=
| Authentication | Validation | NotFound | RateLimit | Server | Generic.

(** [HSEAPIError.__init__(message, status_code=None, details=None)] *)
Record HSEAPIError : Type := mkError {
  kind : ErrorKind;
  message : value;
  status_code : option Z;
  details : value
}.

(** What can be raised while the client runs: the SDK's typed errors,
    the [requests] library's [RequestException] family (connection
    errors, timeouts, exhausted transport retries, JSON decoding
    errors), and the built-in errors of subscripting and attribute
    access. *)
Inductive exn : Type :=
| APIError (e : HSEAPIError)
| RequestException (msg : string)
| KeyError (key : string)
| TypeError
| AttributeError.

End exceptions.
Import exceptions.

(** [v[k]] for a string key [k] *)
Definition py_getitem (v : value) (k : string) : exn + value :=
  match v with
  | VDict d => match dict_get d k with
               | Some x => inr x
               | None => inl (KeyError k)
               end
  | _ => inl TypeError
  end.

(** [v.get(k, default)] *)
Definition py_get (v : value) (k : string) (default : value) : exn + value :=
  match v with
  | VDict d => match dict_get d k with
               | Some x => inr x
               | None => inr default
               end
  | _ => inl AttributeError
  end.

(** ** The [requests] library, as far as the client uses it *)

(** The keyword arguments of one [session.request(...)] call. *)
Module Request.
Record t : Type := mk {
  method : string;
  url : string;
  json : option value;
  params : option value;
  headers : list (string * string);
  timeout : Z
}.
End Request.

Module Response.

(** What [response.json()] does: return the decoded body, or raise a
    [JSONDecodeError] (a [RequestException] since requests 2.27). *)
Inductive decoded : Type :=
| Decoded (v : value)
| DecodeError (msg : string).

(** The decoder belongs to the library, so a response carries its
    verdict on the body next to the body's text. *)
Record t : Type := mk {
  status_code : Z;
  text : string;
  json : decoded
}.

(** [Response.ok]: [raise_for_status()] raises exactly for
    [400 <= status_code < 600], and [ok] is [True] when it does not. *)
Definition ok (r : t) : bool :=
  negb ((400 <=? status_code r) && (status_code r <? 600)).

(** [not response.content]: the body has no bytes. *)
Definition content_empty (r : t) : bool := (text r =? "")%string.

End Response.

(** The outcome of one [session.request]: a response, or a
    [RequestException] with its message.  These are the outcomes the
    client's [except] clauses are written for; what else the library can
    raise (a [ValueError] for a timeout that is not positive, say) is not
    modelled, so nothing below is a statement about such calls. *)
Inductive TransportOutcome : Type :=
| Resp (r : Response.t)
| Fail (msg : string).

(** The remote server together with the mounted adapter (urllib3's retry
    of 429/5xx and connection failures happens below [session.request]):
    it answers a request knowing every request sent before it. *)
Definition Transport : Type := list Request.t -> Request.t -> TransportOutcome.

(** [status_forcelist] of the [Retry] that [__init__] mounts.  Every verb
    the client uses is in [allowed_methods], so a response with one of
    these statuses is retried and, once the retries are used up, replaced
    by a [RetryError], a [RequestException]: [_request] gets a [Fail], not
    the response. *)
Definition status_forcelist : list Z := [429; 500; 502; 503; 504].

(** The responses the mounted adapter does hand to [_request]. *)
Definition delivered (r : Response.t) : bool :=
  negb (existsb (Z.eqb (Response.status_code r)) status_forcelist).


(** ** client.py: state *)

(** An [on_token_refresh] callback: it is handed the new pair, and either
    returns or raises.  (A callback that reaches back into the client and
    mutates it is outside this model.) *)
Definition Observer : Type := types.AuthTokens -> option exn.

(** The attributes of an [HSEClient] instance.  [retry_delay] and the
    [requests.Session] with its mounted adapter only configure the
    transport and live in the [Transport] above. *)
Record HSEClient : Type := mkClient {
  base_url : string;
  access_token : value;
  refresh_token : value;
  timeout : Z;
  max_retries : Z;
  on_token_refresh : option Observer
}.

(** The client object together with what the outside world has seen of
    it: the requests handed to [session.request], oldest first, and the
    pairs handed to the observer. *)
Record State : Type := mkState {
  self : HSEClient;
  sent : list Request.t;
  notified : list types.AuthTokens
}.

Definition with_tokens (c : HSEClient) (a r : value) : HSEClient :=
  mkClient (base_url c) a r (timeout c) (max_retries c) (on_token_refresh c).

(** ** A monad for Python methods: state that survives exceptions *)

Inductive outcome (A : Type) : Type :=
| Return (a : A)
| Raise (e : exn)
| OutOfFuel.
Arguments Return {A} a.
Arguments Raise {A} e.
Arguments OutOfFuel {A}.

Definition M (A : Type) : Type := State -> outcome A * State.

Definition ret {A} (a : A) : M A := fun s => (Return a, s).

Definition raise {A} (e : exn) : M A := fun s => (Raise e, s).

Definition bind {A B} (m : M A) (k : A -> M B) : M B :=
  fun s =>
    match m s with
    | (Return a, s') => k a s'
    | (Raise e, s') => (Raise e, s')
    | (OutOfFuel, s') => (OutOfFuel, s')
    end.

Declare Scope py_scope.
Delimit Scope py_scope with py.
Notation "x <- m ;; k" := (bind m (fun x => k))
  (at level 61, m at next level, right associativity) : py_scope.
Notation "m ;; k" := (bind m (fun _ => k))
  (at level 61, right associativity) : py_scope.
Local Open Scope py_scope.

(** [try: body  except Exception: handler e] ([raise] inside the handler
    re-raises [e]). *)
Definition try_except {A} (body : M A) (handler : exn -> M A) : M A :=
  fun s =>
    match body s with
    | (Raise e, s') => handler e s'
    | r => r
    end.

(** [try: body  except requests.exceptions.RequestException as e: handler] *)
Definition try_except_RequestException {A}
  (body : M A) (handler : string -> M A) : M A :=
  fun s =>
    match body s with
    | (Raise (RequestException msg), s') => handler msg s'
    | r => r
    end.

Definition lift {A} (r : exn + A) : M A :=
  match r with
  | inl e => raise e
  | inr a => ret a
  end.

Definition get_self : M HSEClient := fun s => (Return (self s), s).

Definition put_self (c : HSEClient) : M unit :=
  fun s => (Return tt, mkState c (sent s) (notified s)).

(** [self.session.request(...)]: the request goes out (and is recorded),
    the transport answers. *)
Definition session_request (transport : Transport) (req : Request.t)
  : M Response.t :=
  fun s =>
    let s' := mkState (self s) (sent s ++ [req]) (notified s) in
    match transport (sent s) req with
    | Resp r => (Return r, s')
    | Fail msg => (Raise (RequestException msg), s')
    end.

(** Calling the observer: the call is recorded, then it returns or raises. *)
Definition call_observer (f : Observer) (tokens : types.AuthTokens) : M unit :=
  fun s =>
    let s' := mkState (self s) (sent s) (notified s ++ [tokens]) in
    match f tokens with
    | None => (Return tt, s')
    | Some e => (Raise e, s')
    end.

(** [response.json()]: the decoded body, or the decoder's
    [JSONDecodeError]; failures of the interpreter itself while decoding
    (a [RecursionError] on a very deep body) are not modelled. *)
Definition Response_json (r : Response.t) : M value :=
  match Response.json r with
  | Response.Decoded v => ret v
  | Response.DecodeError msg => raise (RequestException msg)
  end.

(** ** client.py: methods *)

(** [HSEClient.__init__]; the defaults of the keyword arguments are
    [default_base_url], [None], [30], [3] and [None]. *)
Definition __init__ (base_url : string) (access_token : value)
  (timeout max_retries : Z) (on_token_refresh : option Observer) : HSEClient :=
  mkClient (rstrip_slash base_url) access_token VNone
    timeout max_retries on_token_refresh.

Definition default_base_url : string := "http://localhost:3001".

Definition _get_headers : M (list (string * string)) :=
  c <- get_self ;;
  let headers := [("Content-Type", "application/json")] in
  if truthy (access_token c)
  then ret (List.app headers
              [("Authorization", "Bearer " ++ py_str (access_token c))])
  else ret headers.

(** The [try]/[except Exception] block of [_handle_error]: message and
    details of the error. *)
Definition error_message_and_details (response : Response.t) : value * value :=
  let fallback :=
    (if (Response.text response =? "")%string
     then VStr "Unknown error" else VStr (Response.text response), VNone) in
  match Response.json response with
  | Response.Decoded error_data =>
      match py_get error_data "error" (VStr "Unknown error") with
      | inr error_message =>
          match py_get error_data "details" VNone with
          | inr details => (error_message, details)
          | inl _ => fallback
          end
      | inl _ => fallback
      end
  | Response.DecodeError _ => fallback
  end.

(** The [if]/[elif] chain of [_handle_error] on [response.status_code]. *)
Definition error_class (status : Z) : ErrorKind :=
  if status =? 401 then Authentication
  else if status =? 400 then Validation
  else if status =? 404 then NotFound
  else if status =? 429 then RateLimit
  else if status >=? 500 then Server
  else Generic.

(** The exception [_handle_error] raises for a response. *)
Definition classify (response : Response.t) : HSEAPIError :=
  let '(error_message, details) := error_message_and_details response in
  mkError (error_class (Response.status_code response))
    error_message (Some (Response.status_code response)) details.

Definition _handle_error (response : Response.t) : M unit :=
  raise (APIError (classify response)).

Definition clear_tokens : M unit :=
  c <- get_self ;;
  put_self (with_tokens c VNone VNone).

Definition set_tokens (tokens : types.AuthTokens) : M unit :=
  c <- get_self ;;
  put_self (with_tokens c (types.access_token tokens) (types.refresh_token tokens)) ;;
  match on_token_refresh c with
  | Some f => call_observer f tokens
  | None => ret tt
  end.

Section Dispatch.

Variable transport : Transport.

(** [_request] and [_refresh_access_token] call each other; [fuel]
    bounds the depth of that recursion, one unit per call. *)
Fixpoint _request (fuel : nat) (method endpoint : string)
  (data params : option value) (retry_on_401 : bool) {struct fuel} : M value :=
  match fuel with
  | O => fun s => (OutOfFuel, s)
  | S fuel' =>
      c <- get_self ;;
      let url := base_url c ++ endpoint in
      headers <- _get_headers ;;
      try_except_RequestException
        (response <- session_request transport
           (Request.mk method url data params headers (timeout c)) ;;
         c1 <- get_self ;;
         response <-
           (if (Response.status_code response =? 401) && retry_on_401
               && truthy (refresh_token c1)
            then
              try_except
                (_refresh_access_token fuel' ;;
                 c2 <- get_self ;;
                 headers <- _get_headers ;;
                 session_request transport
                   (Request.mk method url data params headers (timeout c2)))
                (fun e => clear_tokens ;; raise e)
            else ret response) ;;
         (if negb (Response.ok response)
          then _handle_error response else ret tt) ;;
         if (Response.status_code response =? 204)
            || Response.content_empty response
         then ret VNone
         else Response_json response)
        (fun msg =>
           raise (APIError
                    (mkError Generic (VStr ("Request failed: " ++ msg))
                       None VNone)))
  end

with _refresh_access_token (fuel : nat) {struct fuel} : M unit :=
  match fuel with
  | O => fun s => (OutOfFuel, s)
  | S fuel' =>
      c <- get_self ;;
      if negb (truthy (refresh_token c))
      then raise (APIError
                    (mkError Authentication
                       (VStr "No refresh token available") None VNone))
      else
        result <- _request fuel' "POST" "/api/auth/refresh"
                    (Some (VDict [("refreshToken", refresh_token c)]))
                    None false ;;
        access <- lift (py_getitem result "accessToken") ;;
        refresh <- lift (py_getitem result "refreshToken") ;;
        set_tokens (types.mkAuthTokens access refresh)
  end.

Definition signup (fuel : nat) (name email password organization_name : string)
  : M value :=
  let data := VDict [("name", VStr name); ("email", VStr email);
                     ("password", VStr password);
                     ("organizationName", VStr organization_name)] in
  result <- _request fuel "POST" "/api/auth/signup-with-org"
              (Some data) None true ;;
  access <- lift (py_getitem result "accessToken") ;;
  refresh <- lift (py_getitem result "refreshToken") ;;
  set_tokens (types.mkAuthTokens access refresh) ;;
  ret result.

Definition login (fuel : nat) (email password : string) : M value :=
  let data := VDict [("email", VStr email); ("password", VStr password)] in
  result <- _request fuel "POST" "/api/auth/login" (Some data) None true ;;
  access <- lift (py_getitem result "accessToken") ;;
  refresh <- lift (py_getitem result "refreshToken") ;;
  set_tokens (types.mkAuthTokens access refresh) ;;
  ret result.

Definition logout (fuel : nat) : M unit :=
  c <- get_self ;;
  (if truthy (refresh_token c)
   then _request fuel "POST" "/api/auth/logout"
          (Some (VDict [("refreshToken", refresh_token c)])) None true ;;
        ret tt
   else ret tt) ;;
  clear_tokens.

(** [if x: params[key] = x] for an optional string argument *)
Definition set_if (params : list (string * value)) (key : string) (x : value)
  : list (string * value) :=
  if truthy x then dict_set params key x else params.

Definition list_audits (fuel : nat)
  (station_id auditor_id status cursor : value) (limit : Z) : M value :=
  let params := [("limit", VInt limit)] in
  let params := set_if params "stationId" station_id in
  let params := set_if params "auditorId" auditor_id in
  let params := set_if params "status" status in
  let params := set_if params "cursor" cursor in
  result <- _request fuel "GET" "/api/audits" None (Some (VDict params)) true ;;
  audits <- lift (py_get result "audits" (VList [])) ;;
  pagination <- lift (py_get result "pagination" (VDict [])) ;;
  ret (VDict [("data", audits); ("pagination", pagination)]).

End Dispatch.

(** ** Closed forms of the dispatcher

    The same computations written without the monad and without fuel:
    what one call does to the state, by cases on what the transport
    answers.  The lemmas of the next section show that the methods above
    compute exactly these once they have fuel for their depth. *)

(** The headers [_get_headers] builds for a client. *)
Definition headers_of (c : HSEClient) : list (string * string) :=
  if truthy (access_token c)
  then [("Content-Type", "application/json");
        ("Authorization", "Bearer " ++ py_str (access_token c))]
  else [("Content-Type", "application/json")].

(** The request [_request] hands to the session for a client. *)
Definition request_of (c : HSEClient) (method endpoint : string)
  (data params : option value) : Request.t :=
  Request.mk method (base_url c ++ endpoint) data params
    (headers_of c) (timeout c).

(** The request of the resend: the URL computed for the first attempt,
    headers and timeout read from the client after the refresh. *)
Definition resend_of (first : Request.t) (c : HSEClient) : Request.t :=
  Request.mk (Request.method first) (Request.url first) (Request.json first)
    (Request.params first) (headers_of c) (timeout c).

(** The state after a request went out. *)
Definition push (s : State) (req : Request.t) : State :=
  mkState (self s) (sent s ++ [req]) (notified s).

(** The state after [clear_tokens]. *)
Definition cleared (s : State) : State :=
  mkState (with_tokens (self s) VNone VNone) (sent s) (notified s).

(** [HSEAPIError(f"Request failed: {str(e)}")] *)
Definition request_failed (msg : string) : exn :=
  APIError (mkError Generic (VStr ("Request failed: " ++ msg)) None VNone).

(** The outer [except RequestException] clause applied to an exception. *)
Definition wrap (e : exn) : exn :=
  match e with
  | RequestException msg => request_failed msg
  | _ => e
  end.

(** Lines 122-128 of [_request]: what becomes of the final response. *)
Definition finish (r : Response.t) : outcome value :=
  if negb (Response.ok r) then Raise (APIError (classify r))
  else if (Response.status_code r =? 204) || Response.content_empty r
  then Return VNone
  else match Response.json r with
       | Response.Decoded v => Return v
       | Response.DecodeError msg => Raise (request_failed msg)
       end.

(** The request of the refresh cycle. *)
Definition refresh_request (c : HSEClient) : Request.t :=
  request_of c "POST" "/api/auth/refresh"
    (Some (VDict [("refreshToken", refresh_token c)])) None.

(** Reading the token pair out of a login, signup or refresh result. *)
Definition tokens_of (result : value) : exn + types.AuthTokens :=
  match py_getitem result "accessToken" with
  | inl e => inl e
  | inr a => match py_getitem result "refreshToken" with
             | inl e => inl e
             | inr r => inr (types.mkAuthTokens a r)
             end
  end.

Section ClosedForms.

Variable transport : Transport.

(** One request, no unauthorized-retry. *)
Definition single_shot (method endpoint : string) (data params : option value)
  (s : State) : outcome value * State :=
  let req := request_of (self s) method endpoint data params in
  match transport (sent s) req with
  | Fail msg => (Raise (request_failed msg), push s req)
  | Resp r => (finish r, push s req)
  end.

(** The refresh cycle. *)
Definition refresh_cycle (s : State) : outcome unit * State :=
  if negb (truthy (refresh_token (self s)))
  then (Raise (APIError (mkError Authentication
                           (VStr "No refresh token available") None VNone)), s)
  else
    match single_shot "POST" "/api/auth/refresh"
            (Some (VDict [("refreshToken", refresh_token (self s))])) None s with
    | (Return result, s1) =>
        match tokens_of result with
        | inl e => (Raise e, s1)
        | inr tokens => set_tokens tokens s1
        end
    | (Raise e, s1) => (Raise e, s1)
    | (OutOfFuel, s1) => (OutOfFuel, s1)
    end.

(** One logical call. *)
Definition dispatch (method endpoint : string) (data params : option value)
  (retry_on_401 : bool) (s : State) : outcome value * State :=
  let req := request_of (self s) method endpoint data params in
  match transport (sent s) req with
  | Fail msg => (Raise (request_failed msg), push s req)
  | Resp r =>
      if (Response.status_code r =? 401) && retry_on_401
         && truthy (refresh_token (self s))
      then
        match refresh_cycle (push s req) with
        | (Return _, s2) =>
            let req2 := resend_of req (self s2) in
            match transport (sent s2) req2 with
            | Fail msg => (Raise (request_failed msg), cleared (push s2 req2))
            | Resp r2 => (finish r2, push s2 req2)
            end
        | (Raise e, s2) => (Raise (wrap e), cleared s2)
        | (OutOfFuel, s2) => (OutOfFuel, s2)
        end
      else (finish r, push s req)
  end.

End ClosedForms.

(** Whether the first answer sends [_request] into the unauthorized-retry
    branch (the condition of line 106). *)
Definition enters_retry (transport : Transport) (method endpoint : string)
  (data params : option value) (retry_on_401 : bool) (s : State) : bool :=
  match transport (sent s) (request_of (self s) method endpoint data params) with
  | Resp r => (Response.status_code r =? 401) && retry_on_401
              && truthy (refresh_token (self s))
  | Fail _ => false
  end.

(** ** The specification's wording, for comparison *)

(** The status-to-kind table as section 4.4 of the specification words
    it, to be compared with the [if]/[elif] chain of the code. *)
Definition kind_of_status (status : Z) : ErrorKind :=
  match status with
  | 401 => Authentication
  | 400 => Validation
  | 404 => NotFound
  | 429 => RateLimit
  | _ => if 500 <=? status then Server else Generic
  end.

(** The message rule as section 4.4 words it, an ordered fallback: the
    "error" field of the JSON body if the body parses, else the raw
    response text, else "Unknown error". *)
Definition spec_message (r : Response.t) : value :=
  let raw_text_or_unknown :=
    if (Response.text r =? "")%string
    then VStr "Unknown error" else VStr (Response.text r) in
  match Response.json r with
  | Response.Decoded (VDict d) =>
      match dict_get d "error" with
      | Some m => m
      | None => raw_text_or_unknown
      end
  | _ => raw_text_or_unknown
  end.

(** What becomes of the response that ends a call, with the failure test
    spelled out on the status code. *)
Definition outcome_by_status (r : Response.t) : outcome value :=
  if (400 <=? Response.status_code r) && (Response.status_code r <? 600)
  then Raise (APIError (classify r))
  else if (Response.status_code r =? 204) || (Response.text r =? "")%string
       then Return VNone
       else match Response.json r with
            | Response.Decoded v => Return v
            | Response.DecodeError msg => Raise (request_failed msg)
            end.

(** ** Sample responses and servers *)

(** A 400 whose body is the empty JSON object. *)
Definition empty_object_400 : Response.t :=
  Response.mk 400 "{}" (Response.Decoded (VDict [])).

(** A 400 whose body is the empty JSON array. *)
Definition empty_array_400 : Response.t :=
  Response.mk 400 "[]" (Response.Decoded (VList [])).

(** A 304 Not Modified, which has no body. *)
Definition not_modified : Response.t :=
  Response.mk 304 "" (Response.DecodeError "Expecting value: line 1 column 1 (char 0)").

Definition always (r : Response.t) : Transport := fun _ _ => Resp r.

(** A client as [HSEClient()] builds it, and one that has logged in. *)
Definition fresh_client : HSEClient := __init__ default_base_url VNone 30 3 None.

Definition logged_in_client : HSEClient :=
  with_tokens fresh_client (VStr "A0") (VStr "R0").

Definition start (c : HSEClient) : State := mkState c [] [].

Definition unauthorized : Response.t :=
  Response.mk 401 "Unauthorized" (Response.DecodeError "Expecting value: line 1 column 1 (char 0)").

(** A server error outside the retry list, so one that is delivered. *)
Definition server_error : Response.t :=
  Response.mk 501 "Not Implemented"
    (Response.DecodeError "Expecting value: line 1 column 1 (char 0)").

Definition forbidden : Response.t :=
  Response.mk 403 "Forbidden"
    (Response.DecodeError "Expecting value: line 1 column 1 (char 0)").

Definition not_found : Response.t :=
  Response.mk 404 "Not Found"
    (Response.DecodeError "Expecting value: line 1 column 1 (char 0)").

(** A 200 carrying a fresh token pair. *)
Definition token_response (a r : string) : Response.t :=
  Response.mk 200 "<json>"
    (Response.Decoded (VDict [("accessToken", VStr a); ("refreshToken", VStr r)])).

Definition is_refresh (req : Request.t) : bool :=
  (Request.url req =? "http://localhost:3001/api/auth/refresh")%string.

(** Rejects every credential; its refresh endpoint answers 403. *)
Definition refresh_forbidden : Transport :=
  fun _ req => if is_refresh req then Resp forbidden else Resp unauthorized.

(** Rejects every credential; its refresh endpoint keeps answering 503,
    which the adapter turns into a [RetryError]. *)
Definition refresh_unavailable : Transport :=
  fun _ req =>
    if is_refresh req
    then Fail "Max retries exceeded (too many 503 error responses)"
    else Resp unauthorized.

(** Rejects every credential, but its refresh endpoint hands out tokens. *)
Definition rejects_refreshed : Transport :=
  fun _ req => if is_refresh req then Resp (token_response "A1" "R1")
               else Resp unauthorized.

(** ** The token pair *)

Definition is_none (v : value) : bool :=
  match v with
  | VNone => true
  | _ => false
  end.

(** Both tokens set, or both absent. *)
Definition consistent (c : HSEClient) : bool :=
  Bool.eqb (is_none (access_token c)) (is_none (refresh_token c)).

Definition paired (tokens : types.AuthTokens) : bool :=
  Bool.eqb (is_none (types.access_token tokens))
           (is_none (types.refresh_token tokens)).

(** A server whose token responses never carry exactly one null token. *)
Definition well_paired (transport : Transport) : Prop :=
  forall (hist : list Request.t) (req : Request.t) (r : Response.t)
         (v : value) (tokens : types.AuthTokens),
    transport hist req = Resp r ->
    Response.json r = Response.Decoded v ->
    tokens_of v = inr tokens ->
    paired tokens = true.

(** What a caller can do with a client once it is built. *)
Inductive operation : Type :=
| SetTokens (tokens : types.AuthTokens)
| ClearTokens
| Login (email password : string)
| Signup (name email password organization_name : string)
| Refresh
| Logout
| Call (method endpoint : string) (data params : option value)
       (retry_on_401 : bool).

(** The state an operation leaves behind, whether it returns or raises. *)
Definition perform (transport : Transport) (fuel : nat) (op : operation)
  (s : State) : State :=
  match op with
  | SetTokens tokens => snd (set_tokens tokens s)
  | ClearTokens => snd (clear_tokens s)
  | Login email password => snd (login transport fuel email password s)
  | Signup name email password organization_name =>
      snd (signup transport fuel name email password organization_name s)
  | Refresh => snd (_refresh_access_token transport fuel s)
  | Logout => snd (logout transport fuel s)
  | Call method endpoint data params retry_on_401 =>
      snd (_request transport fuel method endpoint data params retry_on_401 s)
  end.

(** The caller hands [set_tokens] only pairs with both tokens or none. *)
Definition admissible (op : operation) : bool :=
  match op with
  | SetTokens tokens => paired tokens
  | _ => true
  end.

(** States reachable from a client built without an initial access
    token. *)
Inductive reachable (transport : Transport) : State -> Prop :=
| reachable_init (base_url : string) (timeout max_retries : Z)
    (on_token_refresh : option Observer) :
    reachable transport
      (start (__init__ base_url VNone timeout max_retries on_token_refresh))
| reachable_step (s : State) (op : operation) (fuel : nat) :
    reachable transport s ->
    admissible op = true ->
    reachable transport (perform transport (S (S (S fuel))) op s).

(** Hands out the pair ("A", "R") at every endpoint. *)
Definition login_server : Transport := always (token_response "A" "R").

(** The request [logout] sends. *)
Definition logout_request (c : HSEClient) : Request.t :=
  request_of c "POST" "/api/auth/logout"
    (Some (VDict [("refreshToken", refresh_token c)])) None.

(** The request [login] sends. *)
Definition login_request (c : HSEClient) (email password : string) : Request.t :=
  request_of c "POST" "/api/auth/login"
    (Some (VDict [("email", VStr email); ("password", VStr password)])) None.

(** The result of calling an optional observer on a pair. *)
Definition observer_outcome {A} (c : HSEClient) (tokens : types.AuthTokens)
  (a : A) : outcome A :=
  match on_token_refresh c with
  | Some f => match f tokens with
              | None => Return a
              | Some e => Raise e
              end
  | None => Return a
  end.

(** An audits envelope without its "audits" field. *)
Definition audits_page : Response.t :=
  Response.mk 200 "<json>"
    (Response.Decoded (VDict [("pagination", VDict [("hasMore", VBool false)])])).

(** ** client.py: the resource methods *)

Section Resources.

Variable transport : Transport.

Definition list_stations (fuel : nat) (region : value) : M value :=
  let params := set_if [] "region" region in
  _request transport fuel "GET" "/api/stations" None (Some (VDict params)) true.

Definition create_station (fuel : nat) (kwargs : list (string * value)) : M value :=
  _request transport fuel "POST" "/api/stations" (Some (VDict kwargs)) None true.

Definition update_station (fuel : nat) (station_id : value)
  (kwargs : list (string * value)) : M value :=
  _request transport fuel "PUT" ("/api/stations/" ++ py_str station_id)
    (Some (VDict kwargs)) None true.

Definition delete_station (fuel : nat) (station_id : value) : M unit :=
  _request transport fuel "DELETE" ("/api/stations/" ++ py_str station_id)
    None None true ;;
  ret tt.

Definition get_audit (fuel : nat) (audit_id : value) : M value :=
  _request transport fuel "GET" ("/api/audits/" ++ py_str audit_id) None None true.

Definition create_audit (fuel : nat) (kwargs : list (string * value)) : M value :=
  _request transport fuel "POST" "/api/audits" (Some (VDict kwargs)) None true.

Definition update_audit (fuel : nat) (audit_id : value)
  (kwargs : list (string * value)) : M value :=
  _request transport fuel "PUT" ("/api/audits/" ++ py_str audit_id)
    (Some (VDict kwargs)) None true.

Definition delete_audit (fuel : nat) (audit_id : value) : M unit :=
  _request transport fuel "DELETE" ("/api/audits/" ++ py_str audit_id)
    None None true ;;
  ret tt.

Definition list_incidents (fuel : nat)
  (station_id severity status cursor : value) (limit : Z) : M value :=
  let params := [("limit", VInt limit)] in
  let params := set_if params "stationId" station_id in
  let params := set_if params "severity" severity in
  let params := set_if params "status" status in
  let params := set_if params "cursor" cursor in
  result <- _request transport fuel "GET" "/api/incidents" None
              (Some (VDict params)) true ;;
  incidents <- lift (py_get result "incidents" (VList [])) ;;
  pagination <- lift (py_get result "pagination" (VDict [])) ;;
  ret (VDict [("data", incidents); ("pagination", pagination)]).

Definition get_incident (fuel : nat) (incident_id : value) : M value :=
  _request transport fuel "GET" ("/api/incidents/" ++ py_str incident_id)
    None None true.

Definition create_incident (fuel : nat) (kwargs : list (string * value)) : M value :=
  _request transport fuel "POST" "/api/incidents" (Some (VDict kwargs)) None true.

Definition update_incident (fuel : nat) (incident_id : value)
  (kwargs : list (string * value)) : M value :=
  _request transport fuel "PUT" ("/api/incidents/" ++ py_str incident_id)
    (Some (VDict kwargs)) None true.

Definition delete_incident (fuel : nat) (incident_id : value) : M unit :=
  _request transport fuel "DELETE" ("/api/incidents/" ++ py_str incident_id)
    None None true ;;
  ret tt.

Definition list_contractors (fuel : nat) : M value :=
  _request transport fuel "GET" "/api/contractors" None None true.

Definition list_work_permits (fuel : nat) (station_id : value) : M value :=
  let params := set_if [] "stationId" station_id in
  _request transport fuel "GET" "/api/work-permits" None (Some (VDict params)) true.

Definition list_users (fuel : nat) : M value :=
  _request transport fuel "GET" "/api/users" None None true.

Definition get_current_usage (fuel : nat) : M value :=
  _request transport fuel "GET" "/api/usage/current" None None true.

End Resources.

(** ** States and requests named in the further properties *)

(** The state [set_tokens] leaves. *)
Definition committed (tokens : types.AuthTokens) (s : State) : State :=
  mkState
    (with_tokens (self s) (types.access_token tokens) (types.refresh_token tokens))
    (sent s)
    (notified s ++ match on_token_refresh (self s) with
                   | Some _ => [tokens]
                   | None => []
                   end).

(** The state after a first request [req] and a refresh cycle that
    committed [tokens]. *)
Definition after_refresh (s : State) (req : Request.t)
  (tokens : types.AuthTokens) : State :=
  committed tokens (push (push s req) (refresh_request (self s))).

(** The request [signup] sends. *)
Definition signup_request (c : HSEClient)
  (name email password organization_name : string) : Request.t :=
  request_of c "POST" "/api/auth/signup-with-org"
    (Some (VDict [("name", VStr name); ("email", VStr email);
                  ("password", VStr password);
                  ("organizationName", VStr organization_name)])) None.

(** The entries of a list query: [limit], then the filters that are set. *)
Definition query_of (limit : Z) (filters : list (string * value))
  : list (string * value) :=
  ("limit", VInt limit) :: filter (fun kv => truthy (snd kv)) filters.

(** The envelope [list_audits] and [list_incidents] return for a JSON
    object. *)
Definition envelope (items_key : string) (body : list (string * value)) : value :=
  VDict [("data", match dict_get body items_key with
                  | Some items => items
                  | None => VList []
                  end);
         ("pagination", match dict_get body "pagination" with
                        | Some pagination => pagination
                        | None => VDict []
                        end)].

Definition is_dict (v : value) : bool :=
  match v with
  | VDict _ => true
  | _ => false
  end.

(** Whether a string ends with a slash. *)
Fixpoint ends_with_slash (s : string) : bool :=
  match s with
  | EmptyString => false
  | String c EmptyString => (c =? "/")%char
  | String _ s' => ends_with_slash s'
  end.

Definition no_content : Response.t :=
  Response.mk 204 "" (Response.DecodeError "Expecting value: line 1 column 1 (char 0)").

(** Answers 401 until the refresh endpoint has been called, then 200
    with an empty JSON object. *)
Definition expires_once : Transport :=
  fun hist req =>
    if is_refresh req then Resp (token_response "A1" "R1")
    else if existsb is_refresh hist
         then Resp (Response.mk 200 "{}" (Response.Decoded (VDict [])))
         else Resp unauthorized.

(** Like [expires_once], but the connection drops on the resend. *)
Definition drops_after_refresh : Transport :=
  fun hist req =>
    if is_refresh req then Resp (token_response "A1" "R1")
    else if existsb is_refresh hist then Fail "Connection reset by peer"
         else Resp unauthorized.

(** A server that is down. *)
Definition unreachable : Transport := fun _ _ => Fail "Connection refused".

(** An observer that always raises. *)
Definition failing_observer : Observer := fun _ => Some (KeyError "store").

Definition observed_client : HSEClient :=
  mkClient default_base_url (VStr "A0") (VStr "R0") 30 3 (Some failing_observer).

(** What a list method makes of the dispatcher's result. *)
Definition enveloped (items_key : string) (res : outcome value * State)
  : outcome value * State :=
  match res with
  | (Return (VDict body), s') => (Return (envelope items_key body), s')
  | (Return _, s') => (Raise AttributeError, s')
  | (Raise e, s') => (Raise e, s')
  | (OutOfFuel, s') => (OutOfFuel, s')
  end.

(** The calls of the resource methods. *)
Inductive resource_call : Type :=
| ListStations (region : value)
| CreateStation (kwargs : list (string * value))
| UpdateStation (station_id : value) (kwargs : list (string * value))
| DeleteStation (station_id : value)
| ListAudits (station_id auditor_id status cursor : value) (limit : Z)
| GetAudit (audit_id : value)
| CreateAudit (kwargs : list (string * value))
| UpdateAudit (audit_id : value) (kwargs : list (string * value))
| DeleteAudit (audit_id : value)
| ListIncidents (station_id severity status cursor : value) (limit : Z)
| GetIncident (incident_id : value)
| CreateIncident (kwargs : list (string * value))
| UpdateIncident (incident_id : value) (kwargs : list (string * value))
| DeleteIncident (incident_id : value)
| ListContractors
| ListWorkPermits (station_id : value)
| ListUsers
| GetCurrentUsage.

(** The state a resource method leaves behind. *)
Definition perform_resource (transport : Transport) (fuel : nat)
  (call : resource_call) (s : State) : State :=
  match call with
  | ListStations region => snd (list_stations transport fuel region s)
  | CreateStation kwargs => snd (create_station transport fuel kwargs s)
  | UpdateStation station_id kwargs =>
      snd (update_station transport fuel station_id kwargs s)
  | DeleteStation station_id => snd (delete_station transport fuel station_id s)
  | ListAudits station_id auditor_id status cursor limit =>
      snd (list_audits transport fuel station_id auditor_id status cursor limit s)
  | GetAudit audit_id => snd (get_audit transport fuel audit_id s)
  | CreateAudit kwargs => snd (create_audit transport fuel kwargs s)
  | UpdateAudit audit_id kwargs => snd (update_audit transport fuel audit_id kwargs s)
  | DeleteAudit audit_id => snd (delete_audit transport fuel audit_id s)
  | ListIncidents station_id severity status cursor limit =>
      snd (list_incidents transport fuel station_id severity status cursor limit s)
  | GetIncident incident_id => snd (get_incident transport fuel incident_id s)
  | CreateIncident kwargs => snd (create_incident transport fuel kwargs s)
  | UpdateIncident incident_id kwargs =>
      snd (update_incident transport fuel incident_id kwargs s)
  | DeleteIncident incident_id => snd (delete_incident transport fuel incident_id s)
  | ListContractors => snd (list_contractors transport fuel s)
  | ListWorkPermits station_id => snd (list_work_permits transport fuel station_id s)
  | ListUsers => snd (list_users transport fuel s)
  | GetCurrentUsage => snd (get_current_usage transport fuel s)
  end.

Definition is_verb (method : string) : bool :=
  (method =? "GET")%string || (method =? "POST")%string
  || (method =? "PUT")%string || (method =? "DELETE")%string.

(** * Properties *)

(** ** The methods compute their closed forms *)

Section Adequacy.

Variable transport : Transport.

Lemma get_headers_eq (s : State) :
  _get_headers s = (Return (headers_of (self s)), s).
Proof.
  unfold _get_headers, headers_of, bind, get_self, ret.
  destruct (truthy (access_token (self s))); reflexivity.
Qed.

Lemma request_no_retry (fuel : nat) (method endpoint : string)
  (data params : option value) (s : State) :
  _request transport (S fuel) method endpoint data params false s
  = single_shot transport method endpoint data params s.
Proof.
  unfold single_shot, request_of, finish, push.
  cbn [_request].
  unfold bind at 1. unfold get_self at 1.
  unfold bind at 1. rewrite get_headers_eq.
  unfold try_except_RequestException, bind, session_request, get_self.
  destruct (transport (sent s) _) as [r|msg]; [|reflexivity].
  rewrite andb_false_r. cbn [andb].
  unfold ret, _handle_error, raise, Response_json.
  destruct (Response.ok r); cbn [negb]; [|reflexivity].
  destruct (_ || _); [reflexivity|].
  destruct (Response.json r); reflexivity.
Qed.

Lemma refresh_access_token_eq (fuel : nat) (s : State) :
  _refresh_access_token transport (S (S fuel)) s = refresh_cycle transport s.
Proof.
  unfold refresh_cycle, tokens_of.
  cbn [_refresh_access_token].
  unfold bind at 1. unfold get_self at 1.
  destruct (truthy (refresh_token (self s))); cbn [negb]; [|reflexivity].
  unfold bind at 1. rewrite request_no_retry.
  destruct (single_shot _ _ _ _ _ s) as [[result|e|] s1]; try reflexivity.
  unfold bind, lift.
  destruct (py_getitem result "accessToken") as [e|a]; [reflexivity|].
  unfold ret at 1.
  destruct (py_getitem result "refreshToken") as [e|r]; reflexivity.
Qed.

Lemma request_eq (fuel : nat) (method endpoint : string)
  (data params : option value) (retry_on_401 : bool) (s : State) :
  _request transport (S (S (S fuel))) method endpoint data params retry_on_401 s
  = dispatch transport method endpoint data params retry_on_401 s.
Proof.
  unfold dispatch.
  change (_request transport (S (S (S fuel))) method endpoint data params
            retry_on_401 s)
    with ((c <- get_self ;;
           let url := base_url c ++ endpoint in
           headers <- _get_headers ;;
           try_except_RequestException
             (response <- session_request transport
                (Request.mk method url data params headers (timeout c)) ;;
              c1 <- get_self ;;
              response <-
                (if (Response.status_code response =? 401) && retry_on_401
                    && truthy (refresh_token c1)
                 then
                   try_except
                     (_refresh_access_token transport (S (S fuel)) ;;
                      c2 <- get_self ;;
                      headers <- _get_headers ;;
                      session_request transport
                        (Request.mk method url data params headers (timeout c2)))
                     (fun e => clear_tokens ;; raise e)
                 else ret response) ;;
              (if negb (Response.ok response)
               then _handle_error response else ret tt) ;;
              if (Response.status_code response =? 204)
                 || Response.content_empty response
              then ret VNone
              else Response_json response)
             (fun msg => raise (request_failed msg))) s).
  unfold bind at 1. unfold get_self at 1.
  unfold bind at 1. rewrite get_headers_eq.
  unfold try_except_RequestException.
  unfold bind at 1. unfold session_request at 1.
  fold (request_of (self s) method endpoint data params).
  fold (push s (request_of (self s) method endpoint data params)).
  destruct (transport (sent s) _) as [r|msg]; [|reflexivity].
  unfold bind at 1. unfold get_self at 1.
  cbn [self push].
  destruct ((Response.status_code r =? 401) && retry_on_401
            && truthy (refresh_token (self s))).
  - unfold bind at 1. unfold try_except at 1.
    unfold bind at 1. rewrite refresh_access_token_eq.
    destruct (refresh_cycle transport _) as [[[]|e|] s2].
    + unfold bind at 1. unfold get_self at 1.
      unfold bind at 1. rewrite get_headers_eq.
      unfold session_request at 1.
      change (Request.mk method (base_url (self s) ++ endpoint) data params
                (headers_of (self s2)) (timeout (self s2)))
        with (resend_of (request_of (self s) method endpoint data params)
                (self s2)).
      fold (push s2 (resend_of (request_of (self s) method endpoint data params)
                       (self s2))).
      destruct (transport (sent s2) _) as [r2|msg].
      * unfold finish, bind, ret, _handle_error, raise, Response_json.
        destruct (Response.ok r2); cbn [negb]; [|reflexivity].
        destruct (_ || _); [reflexivity|].
        destruct (Response.json r2); reflexivity.
      * reflexivity.
    + unfold clear_tokens, bind, get_self, put_self, raise, cleared, wrap.
      destruct e; reflexivity.
    + reflexivity.
  - unfold finish, bind, ret, _handle_error, raise, Response_json.
    destruct (Response.ok r); cbn [negb]; [|reflexivity].
    destruct (_ || _); [reflexivity|].
    destruct (Response.json r); reflexivity.
Qed.

End Adequacy.

Section SingleShot.

Variable transport : Transport.

(** When the retry branch is not entered, a call is one request, at any
    positive fuel. *)
Lemma request_not_retried (fuel : nat) (method endpoint : string)
  (data params : option value) (retry_on_401 : bool) (s : State) :
  enters_retry transport method endpoint data params retry_on_401 s = false ->
  _request transport (S fuel) method endpoint data params retry_on_401 s
  = single_shot transport method endpoint data params s.
Proof.
  unfold enters_retry, single_shot, request_of, finish, push.
  intros Hno. cbn [_request].
  unfold bind at 1. unfold get_self at 1.
  unfold bind at 1. rewrite get_headers_eq.
  unfold try_except_RequestException, bind, session_request, get_self.
  fold (request_of (self s) method endpoint data params) in *.
  unfold request_of in *.
  destruct (transport (sent s) _) as [r|msg]; [|reflexivity].
  cbn [self]. rewrite Hno.
  unfold ret, _handle_error, raise, Response_json.
  destruct (Response.ok r); cbn [negb]; [|reflexivity].
  destruct (_ || _); [reflexivity|].
  destruct (Response.json r); reflexivity.
Qed.

Lemma single_shot_state (method endpoint : string) (data params : option value)
  (s : State) :
  snd (single_shot transport method endpoint data params s)
  = push s (request_of (self s) method endpoint data params).
Proof.
  unfold single_shot.
  destruct (transport (sent s) _); reflexivity.
Qed.

End SingleShot.

(** *** Fuel: three units are enough for a call, two for a refresh *)

Section Fuel.

Variable transport : Transport.

Lemma finish_not_out_of_fuel (r : Response.t) : finish r <> OutOfFuel.
Proof.
  unfold finish.
  destruct (negb (Response.ok r)); [discriminate|].
  destruct (_ || _); [discriminate|].
  destruct (Response.json r); discriminate.
Qed.

Lemma refresh_cycle_not_out_of_fuel (s : State) :
  fst (refresh_cycle transport s) <> OutOfFuel.
Proof.
  unfold refresh_cycle.
  destruct (negb (truthy (refresh_token (self s)))); [discriminate|].
  unfold single_shot.
  destruct (transport (sent s) _) as [r|msg]; [|discriminate].
  pose proof (finish_not_out_of_fuel r) as Hfin.
  destruct (finish r) as [result|e|]; [|discriminate|congruence].
  destruct (tokens_of result) as [e|tokens]; [discriminate|].
  unfold set_tokens, bind, get_self, put_self, call_observer, ret.
  destruct (on_token_refresh _) as [f|]; [|discriminate].
  destruct (f tokens); discriminate.
Qed.

Lemma refresh_access_token_terminates (fuel : nat) (s : State) :
  fst (_refresh_access_token transport (S (S fuel)) s) <> OutOfFuel.
Proof. rewrite refresh_access_token_eq. apply refresh_cycle_not_out_of_fuel. Qed.

Lemma request_terminates (fuel : nat) (method endpoint : string)
  (data params : option value) (retry_on_401 : bool) (s : State) :
  fst (_request transport (S (S (S fuel))) method endpoint data params
         retry_on_401 s) <> OutOfFuel.
Proof.
  rewrite request_eq. unfold dispatch.
  destruct (transport (sent s) _) as [r|msg]; [|discriminate].
  destruct (_ && _ && _); [|apply finish_not_out_of_fuel].
  pose proof (refresh_cycle_not_out_of_fuel
                (push s (request_of (self s) method endpoint data params))) as Hre.
  destruct (refresh_cycle transport _) as [[[]|e|] s2]; cbn [fst] in *;
    [|discriminate|congruence].
  destruct (transport (sent s2) _) as [r2|msg]; [|discriminate].
  apply finish_not_out_of_fuel.
Qed.

End Fuel.

(** ** Error classification *)

Lemma error_class_table (status : Z) : error_class status = kind_of_status status.
Proof.
  unfold error_class.
  destruct (status =? 401) eqn:E1; [apply Z.eqb_eq in E1; subst; reflexivity|].
  destruct (status =? 400) eqn:E2; [apply Z.eqb_eq in E2; subst; reflexivity|].
  destruct (status =? 404) eqn:E3; [apply Z.eqb_eq in E3; subst; reflexivity|].
  destruct (status =? 429) eqn:E4; [apply Z.eqb_eq in E4; subst; reflexivity|].
  apply Z.eqb_neq in E1, E2, E3, E4.
  assert (Hge : (status >=? 500) = (500 <=? status)) by (rewrite Z.geb_leb; reflexivity).
  rewrite Hge.
  unfold kind_of_status.
  destruct status as [|p|p]; try reflexivity.
  do 9 (destruct p as [p|p|]; try reflexivity); congruence.
Qed.

(** C3.  Error classification is total and its kind depends on the status
    code alone: for every response, whatever its body, [_handle_error]
    raises exactly one typed error, carrying the response's status, whose
    kind is Authentication for 401, Validation for 400, NotFound for 404,
    RateLimit for 429, Server for every status from 500 up, and Generic
    for anything else. *)
Theorem handle_error_kind_by_status (response : Response.t) (s : State) :
  exists e : HSEAPIError,
    _handle_error response s = (Raise (APIError e), s)
    /\ kind e = kind_of_status (Response.status_code response)
    /\ status_code e = Some (Response.status_code response).
Proof.
  exists (classify response). split; [reflexivity|].
  unfold classify.
  destruct (error_message_and_details response) as [m d]; cbn [kind status_code].
  split; [apply error_class_table | reflexivity].
Qed.

(** C6, refuted as worded.  A 400 whose body is the JSON object [{}]
    parses, has no "error" field and has a non-empty raw text; the ordered
    fallback would give the raw text, the code gives "Unknown error".
    (And a body that parses to something other than an object, such as
    [[]], gets its raw text as message.) *)
Lemma message_fallback_counterexample :
  message (classify empty_object_400) = VStr "Unknown error"
  /\ spec_message empty_object_400 = VStr "{}"
  /\ message (classify empty_object_400) <> spec_message empty_object_400
  /\ message (classify empty_array_400) = VStr "[]".
Proof.
  split; [reflexivity|]. split; [reflexivity|].
  split; [cbv; discriminate | reflexivity].
Qed.

(** C6, amended.  When the body parses to a JSON object, the message is
    its "error" field, or "Unknown error" if the object has none, and the
    details are its "details" field, or absent if it has none.  In every
    other case (the body does not parse, or parses to something that is
    not an object) the message is the raw response text, or "Unknown
    error" if the text is empty, and the details are absent. *)
Theorem handle_error_message_details (response : Response.t) (s : State) :
  exists e : HSEAPIError,
    _handle_error response s = (Raise (APIError e), s)
    /\ message e =
       match Response.json response with
       | Response.Decoded (VDict d) =>
           match dict_get d "error" with
           | Some m => m
           | None => VStr "Unknown error"
           end
       | _ => if (Response.text response =? "")%string
              then VStr "Unknown error" else VStr (Response.text response)
       end
    /\ details e =
       match Response.json response with
       | Response.Decoded (VDict d) =>
           match dict_get d "details" with
           | Some x => x
           | None => VNone
           end
       | _ => VNone
       end.
Proof.
  exists (classify response). split; [reflexivity|].
  unfold classify, error_message_and_details.
  destruct (Response.json response) as [v|msg]; [|split; reflexivity].
  destruct v; try (split; reflexivity).
  unfold py_get.
  destruct (dict_get d "error"), (dict_get d "details"); split; reflexivity.
Qed.

(** ** Success and failure of the final response *)

(** C4, refuted as worded.  A 304 lies outside [200,299], and a call
    answered 304 returns normally with an empty result. *)
Lemma status_304_counterexample :
  Response.status_code not_modified = 304
  /\ fst (_request (always not_modified) 3 "GET" "/api/stations" None None true
            (start logged_in_client))
     = Return VNone.
Proof. split; reflexivity. Qed.

Lemma finish_by_status (r : Response.t) : finish r = outcome_by_status r.
Proof.
  unfold finish, outcome_by_status, Response.ok, Response.content_empty.
  rewrite negb_involutive. reflexivity.
Qed.

(** C4, amended.  The response that ends a call - the first one when the
    unauthorized-retry branch is not entered, the resent one after a
    successful refresh - is classified into its typed error exactly when
    its status lies in [400,599].  For any other status, 1xx and 3xx
    included, nothing is classified: the result is empty for 204 or an
    empty body, the decoded body when a non-empty body decodes, and the
    Generic "Request failed" error when it does not.  The two cases are
    stated separately, each for every state and every answer of the
    transport. *)
Theorem request_fails_on_4xx_5xx (transport : Transport) (fuel : nat)
  (method endpoint : string) (data params : option value) :
  (forall (retry_on_401 : bool) (s : State) (r : Response.t),
     transport (sent s) (request_of (self s) method endpoint data params)
     = Resp r ->
     (Response.status_code r =? 401) && retry_on_401
       && truthy (refresh_token (self s)) = false ->
     _request transport (S fuel) method endpoint data params retry_on_401 s
     = (outcome_by_status r,
        push s (request_of (self s) method endpoint data params)))
  /\ (forall (s s2 : State) (r1 r2 : Response.t),
        transport (sent s) (request_of (self s) method endpoint data params)
        = Resp r1 ->
        (Response.status_code r1 =? 401) && truthy (refresh_token (self s))
        = true ->
        _refresh_access_token transport (S (S fuel))
          (push s (request_of (self s) method endpoint data params))
        = (Return tt, s2) ->
        transport (sent s2)
          (resend_of (request_of (self s) method endpoint data params) (self s2))
        = Resp r2 ->
        _request transport (S (S (S fuel))) method endpoint data params true s
        = (outcome_by_status r2,
           push s2 (resend_of (request_of (self s) method endpoint data params)
                      (self s2))))
  /\ (forall r : Response.t,
        outcome_by_status r = Raise (APIError (classify r))
        <-> 400 <= Response.status_code r < 600).
Proof.
  split; [|split].
  - intros retry_on_401 s r Hr Hno.
    rewrite request_not_retried
      by (unfold enters_retry; rewrite Hr; exact Hno).
    unfold single_shot. rewrite Hr, finish_by_status. reflexivity.
  - intros s s2 r1 r2 Hr1 Hyes Hrefresh Hr2.
    rewrite refresh_access_token_eq in Hrefresh.
    rewrite request_eq. unfold dispatch.
    rewrite Hr1, andb_true_r, Hyes, Hrefresh, Hr2, finish_by_status.
    reflexivity.
  - intros r. unfold outcome_by_status. split.
    + destruct ((400 <=? Response.status_code r)
                && (Response.status_code r <? 600)) eqn:Hrange.
      * intros _. apply andb_prop in Hrange. destruct Hrange as [Hlo Hhi].
        apply Z.leb_le in Hlo. apply Z.ltb_lt in Hhi. lia.
      * destruct (_ || _); [discriminate|].
        destruct (Response.json r); [discriminate|].
        unfold request_failed, classify.
        destruct (error_message_and_details r). discriminate.
    + intros [Hlo Hhi].
      apply Z.leb_le in Hlo. apply Z.ltb_lt in Hhi.
      rewrite Hlo, Hhi. reflexivity.
Qed.

Lemma request_fails_on_4xx_5xx_witness :
  _request (always not_found) 1 "GET" "/api/audits/none" None None true
    (start logged_in_client)
  = (Raise (APIError (mkError NotFound (VStr "Not Found") (Some 404) VNone)),
     push (start logged_in_client)
       (request_of logged_in_client "GET" "/api/audits/none" None None))
  /\ _request (always not_modified) 1 "GET" "/api/audits/none" None None true
       (start logged_in_client)
     = (Return VNone,
        push (start logged_in_client)
          (request_of logged_in_client "GET" "/api/audits/none" None None))
  /\ fst (_request rejects_refreshed 3 "GET" "/api/users" None None true
            (start logged_in_client))
     = Raise (APIError (mkError Authentication (VStr "Unauthorized") (Some 401) VNone)).
Proof.
  split; [|split].
  - exact (proj1 (request_fails_on_4xx_5xx (always not_found) 0
                    "GET" "/api/audits/none" None None)
             true (start logged_in_client) not_found eq_refl eq_refl).
  - exact (proj1 (request_fails_on_4xx_5xx (always not_modified) 0
                    "GET" "/api/audits/none" None None)
             true (start logged_in_client) not_modified eq_refl eq_refl).
  - rewrite (proj1 (proj2 (request_fails_on_4xx_5xx rejects_refreshed 0
                             "GET" "/api/users" None None))
               (start logged_in_client)
               (snd (_refresh_access_token rejects_refreshed 2
                       (push (start logged_in_client)
                          (request_of logged_in_client "GET" "/api/users"
                             None None))))
               unauthorized unauthorized eq_refl eq_refl eq_refl eq_refl).
    reflexivity.
Defined.

(** ** What a call sends *)

Section Traffic.

Variable transport : Transport.

Lemma set_tokens_eq (tokens : types.AuthTokens) (s : State) :
  set_tokens tokens s
  = (observer_outcome (self s) tokens tt,
     mkState
       (with_tokens (self s) (types.access_token tokens) (types.refresh_token tokens))
       (sent s)
       (notified s ++ match on_token_refresh (self s) with
                      | Some _ => [tokens]
                      | None => []
                      end)).
Proof.
  unfold set_tokens, observer_outcome, bind, get_self, put_self,
    call_observer, ret.
  cbn [self sent notified].
  destruct (on_token_refresh (self s)) as [f|].
  - destruct (f tokens); reflexivity.
  - rewrite app_nil_r. reflexivity.
Qed.

Lemma set_tokens_state (tokens : types.AuthTokens) (s : State) :
  snd (set_tokens tokens s)
  = mkState
      (with_tokens (self s) (types.access_token tokens) (types.refresh_token tokens))
      (sent s)
      (notified s ++ match on_token_refresh (self s) with
                     | Some _ => [tokens]
                     | None => []
                     end).
Proof. rewrite set_tokens_eq. reflexivity. Qed.

(** The refresh cycle changes the tokens only by committing a pair read
    from the refresh response, and sends one request if it sends any. *)
Lemma refresh_cycle_state (s : State) :
  snd (refresh_cycle transport s) = s
  \/ snd (refresh_cycle transport s) = push s (refresh_request (self s))
  \/ exists (r : Response.t) (v : value) (tokens : types.AuthTokens),
       transport (sent s) (refresh_request (self s)) = Resp r
       /\ Response.json r = Response.Decoded v
       /\ tokens_of v = inr tokens
       /\ snd (refresh_cycle transport s)
          = snd (set_tokens tokens (push s (refresh_request (self s)))).
Proof.
  unfold refresh_cycle.
  destruct (truthy (refresh_token (self s))); cbn [negb]; [|left; reflexivity].
  unfold single_shot. fold (refresh_request (self s)).
  destruct (transport (sent s) (refresh_request (self s))) as [r|msg] eqn:Hr;
    [|right; left; reflexivity].
  destruct (finish r) as [result|e|] eqn:Hfin; try (right; left; reflexivity).
  destruct (tokens_of result) as [e|tokens] eqn:Htok; [right; left; reflexivity|].
  right; right. exists r, result, tokens.
  repeat split; try assumption.
  unfold finish in Hfin.
  destruct (negb (Response.ok r)); [discriminate|].
  destruct (_ || _).
  - inversion Hfin; subst. discriminate Htok.
  - destruct (Response.json r); inversion Hfin; reflexivity.
Qed.

Lemma refresh_cycle_sent (s : State) :
  sent (snd (refresh_cycle transport s))
  = (sent s ++ if truthy (refresh_token (self s))
               then [refresh_request (self s)] else [])%list.
Proof.
  unfold refresh_cycle.
  destruct (truthy (refresh_token (self s))); cbn [negb snd];
    [|rewrite app_nil_r; reflexivity].
  unfold single_shot. fold (refresh_request (self s)).
  destruct (transport (sent s) (refresh_request (self s))) as [r|msg];
    [|reflexivity].
  destruct (finish r) as [result|e|]; try reflexivity.
  destruct (tokens_of result) as [e|tokens]; [reflexivity|].
  rewrite set_tokens_state. reflexivity.
Qed.

End Traffic.

(** C7.  With no refresh token (absent, or an empty string, which Python
    also takes for false) the refresh cycle fails at once with the
    Authentication error "No refresh token available" and leaves the
    state, the log of requests included, as it was; and a dispatcher call
    sends its one request and nothing else, whatever the answer: the
    unauthorized-retry path is not entered. *)
Theorem refresh_needs_token (transport : Transport) (fuel : nat)
  (method endpoint : string) (data params : option value) (retry_on_401 : bool)
  (s : State) :
  truthy (refresh_token (self s)) = false ->
  _refresh_access_token transport (S fuel) s
  = (Raise (APIError (mkError Authentication
                        (VStr "No refresh token available") None VNone)), s)
  /\ snd (_request transport (S fuel) method endpoint data params retry_on_401 s)
     = push s (request_of (self s) method endpoint data params).
Proof.
  intros Habsent. split.
  - cbn [_refresh_access_token]. unfold bind, get_self.
    rewrite Habsent. reflexivity.
  - rewrite request_not_retried.
    + apply single_shot_state.
    + unfold enters_retry.
      destruct (transport (sent s) _); [|reflexivity].
      rewrite Habsent. apply andb_false_r.
Qed.

Lemma refresh_needs_token_witness :
  _refresh_access_token (always unauthorized) 1 (start fresh_client)
  = (Raise (APIError (mkError Authentication
                        (VStr "No refresh token available") None VNone)),
     start fresh_client)
  /\ snd (_request (always unauthorized) 1 "GET" "/api/users" None None true
            (start fresh_client))
     = push (start fresh_client) (request_of fresh_client "GET" "/api/users" None None).
Proof.
  exact (refresh_needs_token (always unauthorized) 0 "GET" "/api/users"
           None None true (start fresh_client) eq_refl).
Defined.

(** The requests one [dispatch] adds to the log. *)
Lemma dispatch_traffic (transport : Transport)
  (method endpoint : string) (data params : option value) (retry_on_401 : bool)
  (s : State) :
  exists tail : list Request.t,
    sent (snd (dispatch transport method endpoint data params retry_on_401 s))
    = (sent s ++ request_of (self s) method endpoint data params :: tail)%list
    /\ (tail = []
        \/ (retry_on_401 = true
            /\ truthy (refresh_token (self s)) = true
            /\ (tail = [refresh_request (self s)]
                \/ exists c2 : HSEClient,
                     tail = [refresh_request (self s);
                             resend_of (request_of (self s) method endpoint
                                          data params) c2]))).
Proof.
  unfold dispatch.
  set (req := request_of (self s) method endpoint data params).
  destruct (transport (sent s) req) as [r|msg];
    [|exists []; split; [reflexivity | left; reflexivity]].
  destruct ((Response.status_code r =? 401) && retry_on_401
            && truthy (refresh_token (self s))) eqn:Hcond;
    [|exists []; split; [reflexivity | left; reflexivity]].
  apply andb_prop in Hcond. destruct Hcond as [Hcond Htok].
  apply andb_prop in Hcond. destruct Hcond as [_ Hretry].
  pose proof (refresh_cycle_sent transport (push s req)) as Hsent.
  cbn [self sent push] in Hsent. rewrite Htok in Hsent.
  destruct (refresh_cycle transport (push s req)) as [[[]|e|] s2];
    cbn [snd] in Hsent.
  - exists [refresh_request (self s); resend_of req (self s2)].
    split.
    + destruct (transport (sent s2) (resend_of req (self s2)));
        cbn [snd push sent cleared]; rewrite Hsent, <- !app_assoc; reflexivity.
    + right. repeat split; try assumption. right. exists (self s2). reflexivity.
  - exists [refresh_request (self s)].
    cbn [snd sent cleared]. rewrite Hsent, <- app_assoc. split; [reflexivity|].
    right. repeat split; try assumption. left. reflexivity.
  - exists [refresh_request (self s)].
    cbn [snd]. rewrite Hsent, <- app_assoc. split; [reflexivity|].
    right. repeat split; try assumption. left. reflexivity.
Qed.

(** C2.  One logical call sends its request and then at most one refresh
    request followed by at most one resend, whatever the server answers
    (so a second 401, on the resend, ends the call); anything beyond the
    first request needs [retry_on_401] and a refresh token.  The refresh
    cycle itself sends one request when it has a refresh token and none
    otherwise, whatever the answer: it is never retried. *)
Theorem at_most_one_unauthorized_retry (transport : Transport) (fuel : nat)
  (method endpoint : string) (data params : option value) (retry_on_401 : bool)
  (s : State) :
  (exists tail : list Request.t,
     sent (snd (_request transport (S (S (S fuel))) method endpoint data params
                  retry_on_401 s))
     = (sent s ++ request_of (self s) method endpoint data params :: tail)%list
     /\ (tail = []
         \/ (retry_on_401 = true
             /\ truthy (refresh_token (self s)) = true
             /\ (tail = [refresh_request (self s)]
                 \/ exists c2 : HSEClient,
                      tail = [refresh_request (self s);
                              resend_of (request_of (self s) method endpoint
                                           data params) c2]))))
  /\ sent (snd (_refresh_access_token transport (S (S fuel)) s))
     = (sent s ++ if truthy (refresh_token (self s))
                  then [refresh_request (self s)] else [])%list.
Proof.
  split.
  - rewrite request_eq. apply dispatch_traffic.
  - rewrite refresh_access_token_eq. apply refresh_cycle_sent.
Qed.

(** A server that rejects the refreshed credential too: three requests
    (original, refresh, resend), then the Authentication error of the
    second 401. *)
Example second_401_ends_the_call :
  let '(out, s') := _request rejects_refreshed 3 "GET" "/api/users" None None true
                      (start logged_in_client) in
  out = Raise (APIError (mkError Authentication (VStr "Unauthorized") (Some 401) VNone))
  /\ map Request.url (sent s')
     = ["http://localhost:3001/api/users";
        "http://localhost:3001/api/auth/refresh";
        "http://localhost:3001/api/users"]
  /\ access_token (self s') = VStr "A1".
Proof. repeat split. Qed.

(** ** Failure of the refresh cycle *)

(** C1, refuted as worded.  The first answer is 401, a refresh token is
    there, and the refresh fails.  When the refresh call is answered 403
    the caller gets the Generic error of that 403; when the refresh
    endpoint is unavailable (the adapter's retries on 503 run out) the
    caller gets the Generic "Request failed" error.  In both cases the
    tokens are cleared, and in neither is the error an Authentication
    error.  Both are answers the mounted adapter delivers. *)
Lemma refresh_failure_counterexample :
  delivered unauthorized = true
  /\ delivered forbidden = true
  /\ (let '(out, s') := _request refresh_forbidden 3 "GET" "/api/stations"
                          None None true (start logged_in_client) in
      out = Raise (APIError (mkError Generic (VStr "Forbidden") (Some 403) VNone))
      /\ (forall e : HSEAPIError,
            out = Raise (APIError e) -> kind e <> Authentication)
      /\ access_token (self s') = VNone
      /\ refresh_token (self s') = VNone)
  /\ (let '(out, s') := _request refresh_unavailable 3 "GET" "/api/stations"
                          None None true (start logged_in_client) in
      out = Raise (request_failed
                     "Max retries exceeded (too many 503 error responses)")
      /\ (forall e : HSEAPIError,
            out = Raise (APIError e) -> kind e <> Authentication)
      /\ access_token (self s') = VNone
      /\ refresh_token (self s') = VNone).
Proof.
  split; [reflexivity|]. split; [reflexivity|].
  cbv beta iota zeta. split.
  - split; [reflexivity|]. split; [|split; reflexivity].
    intros e He. vm_compute in He. inversion He; subst. discriminate.
  - split; [reflexivity|]. split; [|split; reflexivity].
    intros e He. vm_compute in He. inversion He; subst. discriminate.
Qed.

(** C1, amended.  When the first answer is 401, retry is allowed, a
    refresh token is there and the refresh cycle raises, both tokens are
    cleared and the caller receives the exception the refresh cycle
    raised (a [RequestException] wrapped as "Request failed"), not an
    error built from the first 401 response.  That exception is the
    classification of the refresh response when that response is a
    failure status (Authentication exactly when it is 401), and the
    "Request failed" error when the transport failed, which is also how
    a refresh endpoint that keeps answering 429, 500, 502, 503 or 504
    shows. *)
Theorem refresh_failure_clears_and_propagates (transport : Transport)
  (fuel : nat) (method endpoint : string) (data params : option value)
  (s s2 : State) (r1 : Response.t) (e : exn) :
  transport (sent s) (request_of (self s) method endpoint data params) = Resp r1 ->
  Response.status_code r1 = 401 ->
  truthy (refresh_token (self s)) = true ->
  _refresh_access_token transport (S (S fuel))
    (push s (request_of (self s) method endpoint data params)) = (Raise e, s2) ->
  _request transport (S (S (S fuel))) method endpoint data params true s
  = (Raise (wrap e), cleared s2)
  /\ access_token (self (cleared s2)) = VNone
  /\ refresh_token (self (cleared s2)) = VNone
  /\ match transport
             (sent s ++ [request_of (self s) method endpoint data params])%list
             (refresh_request (self s)) with
     | Resp r2 =>
         if Response.ok r2 then True
         else e = APIError (classify r2)
              /\ (kind (classify r2) = Authentication
                  <-> Response.status_code r2 = 401)
     | Fail msg => e = request_failed msg
     end.
Proof.
  intros Hr1 H401 Htok Hrefresh.
  rewrite refresh_access_token_eq in Hrefresh.
  split; [|split; [reflexivity|split; [reflexivity|]]].
  - rewrite request_eq. unfold dispatch.
    rewrite Hr1, H401, Htok, Hrefresh. reflexivity.
  - unfold refresh_cycle in Hrefresh. cbn [self push] in Hrefresh.
    rewrite Htok in Hrefresh. cbn [negb] in Hrefresh.
    unfold single_shot in Hrefresh. cbn [self sent push] in Hrefresh.
    fold (refresh_request (self s)) in Hrefresh.
    destruct (transport _ (refresh_request (self s))) as [r2|msg].
    + unfold finish in Hrefresh.
      destruct (Response.ok r2) eqn:Hok; [exact I|].
      cbn [negb] in Hrefresh. inversion Hrefresh; subst. split; [reflexivity|].
      unfold classify.
      destruct (error_message_and_details r2); cbn [kind].
      rewrite error_class_table.
      unfold Response.ok in Hok. apply negb_false_iff in Hok.
      apply andb_prop in Hok. destruct Hok as [Hlo Hhi].
      apply Z.leb_le in Hlo. apply Z.ltb_lt in Hhi.
      split.
      * intros Hk. unfold kind_of_status in Hk.
        destruct (Response.status_code r2) as [|p|p]; try discriminate.
        do 9 (destruct p as [p|p|]; try discriminate;
              try (destruct (500 <=? _); discriminate)); reflexivity.
      * intros ->. reflexivity.
    + inversion Hrefresh; reflexivity.
Qed.

Lemma refresh_failure_clears_and_propagates_witness :
  _request refresh_forbidden 3 "GET" "/api/stations" None None true
    (start logged_in_client)
  = (Raise (APIError (classify forbidden)),
     cleared (push (push (start logged_in_client)
                      (request_of logged_in_client "GET" "/api/stations" None None))
                (refresh_request logged_in_client)))
  /\ kind (classify forbidden) = Generic.
Proof.
  split; [|reflexivity].
  exact (proj1 (refresh_failure_clears_and_propagates refresh_forbidden 0
                  "GET" "/api/stations" None None (start logged_in_client) _
                  unauthorized (APIError (classify forbidden))
                  eq_refl eq_refl eq_refl eq_refl)).
Defined.

(** ** The token pair *)

Section TokenPair.

Variable transport : Transport.
Hypothesis server_pairs : well_paired transport.

Lemma set_tokens_consistent (tokens : types.AuthTokens) (s : State) :
  paired tokens = true -> consistent (self (snd (set_tokens tokens s))) = true.
Proof. intros Hp. rewrite set_tokens_state. exact Hp. Qed.

(** A value [finish] returns is [None] or a decoded body. *)
Lemma finish_returns (r : Response.t) (v : value) :
  finish r = Return v -> v = VNone \/ Response.json r = Response.Decoded v.
Proof.
  unfold finish.
  destruct (negb (Response.ok r)); [discriminate|].
  destruct (_ || _).
  - intros H; inversion H; left; reflexivity.
  - destruct (Response.json r); intros H; inversion H; right; reflexivity.
Qed.

Lemma refresh_cycle_consistent (s : State) :
  consistent (self s) = true ->
  consistent (self (snd (refresh_cycle transport s))) = true.
Proof.
  intros Hs.
  destruct (refresh_cycle_state transport s)
    as [-> | [-> | (r & v & tokens & Hr & Hj & Ht & ->)]]; try exact Hs.
  apply set_tokens_consistent. exact (server_pairs _ _ _ _ _ Hr Hj Ht).
Qed.

(** What [dispatch] returns is [None] or a body the server sent. *)
Lemma dispatch_returns (method endpoint : string) (data params : option value)
  (retry_on_401 : bool) (s s' : State) (v : value) :
  dispatch transport method endpoint data params retry_on_401 s = (Return v, s') ->
  v = VNone
  \/ exists (hist : list Request.t) (req : Request.t) (r : Response.t),
       transport hist req = Resp r /\ Response.json r = Response.Decoded v.
Proof.
  unfold dispatch.
  set (req := request_of (self s) method endpoint data params).
  destruct (transport (sent s) req) as [r|msg] eqn:Hr; [|discriminate].
  destruct (_ && _ && _).
  - destruct (refresh_cycle transport (push s req)) as [[[]|e|] s2];
      try discriminate.
    destruct (transport (sent s2) (resend_of req (self s2))) as [r2|msg] eqn:Hr2;
      [|discriminate].
    intros H; inversion H as [[Hfin Hs']].
    destruct (finish_returns _ _ Hfin) as [->|Hj]; [left; reflexivity|].
    right; eauto.
  - intros H; inversion H as [[Hfin Hs']].
    destruct (finish_returns _ _ Hfin) as [->|Hj]; [left; reflexivity|].
    right; eauto.
Qed.

Lemma dispatch_consistent (method endpoint : string) (data params : option value)
  (retry_on_401 : bool) (s : State) :
  consistent (self s) = true ->
  consistent
    (self (snd (dispatch transport method endpoint data params retry_on_401 s)))
  = true.
Proof.
  intros Hs. unfold dispatch.
  set (req := request_of (self s) method endpoint data params).
  destruct (transport (sent s) req) as [r|msg]; [|exact Hs].
  destruct (_ && _ && _); [|exact Hs].
  pose proof (refresh_cycle_consistent (push s req) Hs) as H2.
  destruct (refresh_cycle transport (push s req)) as [[[]|e|] s2];
    cbn [snd] in H2.
  - destruct (transport (sent s2) (resend_of req (self s2))); [exact H2|reflexivity].
  - reflexivity.
  - exact H2.
Qed.

(** The tail shared by [login] and [signup]: read the pair, commit it. *)
Lemma commit_consistent (method endpoint : string) (data params : option value)
  (s : State) :
  consistent (self s) = true ->
  consistent
    (self (snd ((result <- dispatch transport method endpoint data params true ;;
                 access <- lift (py_getitem result "accessToken") ;;
                 refresh <- lift (py_getitem result "refreshToken") ;;
                 set_tokens (types.mkAuthTokens access refresh) ;;
                 ret result)%py s)))
  = true.
Proof.
  intros Hs.
  pose proof (dispatch_consistent method endpoint data params true s Hs) as H1.
  unfold bind at 1.
  destruct (dispatch transport method endpoint data params true s)
    as [[result|e|] s1] eqn:Hd; cbn [snd] in *; try exact H1.
  assert (Hpair : forall tokens, tokens_of result = inr tokens -> paired tokens = true).
  { intros tokens Ht.
    destruct (dispatch_returns _ _ _ _ _ _ _ _ Hd) as [->|(hist & req & r & Hr & Hj)].
    - discriminate Ht.
    - exact (server_pairs _ _ _ _ _ Hr Hj Ht). }
  unfold tokens_of in Hpair.
  unfold bind at 1. unfold lift at 1.
  destruct (py_getitem result "accessToken") as [e|a]; [exact H1|].
  unfold ret at 1. unfold bind at 1. unfold lift at 1.
  destruct (py_getitem result "refreshToken") as [e|rt]; [exact H1|].
  unfold ret at 1. unfold bind at 1.
  pose proof (set_tokens_consistent (types.mkAuthTokens a rt) s1
                (Hpair _ eq_refl)) as H2.
  destruct (set_tokens (types.mkAuthTokens a rt) s1) as [[[]|e|] s2];
    cbn [snd] in *; exact H2.
Qed.

Lemma perform_consistent (fuel : nat) (op : operation) (s : State) :
  admissible op = true ->
  consistent (self s) = true ->
  consistent (self (perform transport (S (S (S fuel))) op s)) = true.
Proof.
  intros Hop Hs. destruct op; cbn [perform admissible] in *.
  - apply set_tokens_consistent; assumption.
  - reflexivity.
  - unfold login. unfold bind at 1. rewrite request_eq.
    apply (commit_consistent "POST" "/api/auth/login" _ None s Hs).
  - unfold signup. unfold bind at 1. rewrite request_eq.
    apply (commit_consistent "POST" "/api/auth/signup-with-org" _ None s Hs).
  - rewrite refresh_access_token_eq. apply refresh_cycle_consistent; assumption.
  - unfold logout. unfold bind at 1. unfold get_self at 1.
    destruct (truthy (refresh_token (self s))); [|reflexivity].
    unfold bind at 1. unfold bind at 1. rewrite request_eq.
    pose proof (dispatch_consistent "POST" "/api/auth/logout"
                  (Some (VDict [("refreshToken", refresh_token (self s))]))
                  None true s Hs) as H1.
    destruct (dispatch transport _ _ _ _ _ s) as [[v|e|] s1]; cbn [snd] in *;
      [reflexivity | exact H1 | exact H1].
  - rewrite request_eq. apply dispatch_consistent; assumption.
Qed.

End TokenPair.

(** C5, refuted as worded.  A client built with an initial access token,
    as the constructor allows, holds an access token and no refresh
    token. *)
Lemma initial_access_token_counterexample :
  let c := __init__ default_base_url (VStr "tok") 30 3 None in
  access_token c = VStr "tok"
  /\ refresh_token c = VNone
  /\ consistent c = false.
Proof. repeat split. Qed.

(** C5, amended.  Against a server whose token responses never carry
    exactly one null token, every state reached from a client built
    without an initial access token, by any sequence of [set_tokens] (on
    such pairs), [clear_tokens], [login], [signup], refresh, [logout] and
    dispatcher calls, returning or raising, has both tokens set or both
    absent. *)
Theorem token_pair_consistent (transport : Transport) (s : State) :
  well_paired transport ->
  reachable transport s ->
  consistent (self s) = true.
Proof.
  intros Hserver Hreach.
  induction Hreach as [b t m o | s op fuel Hreach IH Hop].
  - reflexivity.
  - apply perform_consistent; assumption.
Qed.

Lemma login_server_well_paired : well_paired login_server.
Proof.
  intros hist req r v tokens Hr Hj Ht.
  inversion Hr; subst r. cbn in Hj. inversion Hj; subst v.
  cbv in Ht. inversion Ht; subst tokens. reflexivity.
Qed.

Lemma token_pair_consistent_witness :
  consistent
    (self (perform login_server 3 Logout
             (perform login_server 3 (Login "admin@example.com" "password123")
                (start fresh_client))))
  = true.
Proof.
  apply (token_pair_consistent login_server).
  - exact login_server_well_paired.
  - apply (reachable_step login_server _ Logout 0); [|reflexivity].
    apply (reachable_step login_server _ (Login _ _) 0); [|reflexivity].
    exact (reachable_init login_server default_base_url 30 3 None).
Defined.

(** ** Committing credentials *)

(** C8.  [set_tokens] replaces both tokens by those of the pair it is
    given and, if an observer was registered, calls it once, with exactly
    that pair, before it returns (or raises what the observer raised).
    And a login answered with a success response whose body carries
    accessToken "A" and refreshToken "R" leaves the client holding that
    pair, so that its headers carry Authorization "Bearer A". *)
Theorem set_tokens_commits_pair (tokens : types.AuthTokens) (s0 : State)
  (transport : Transport) (fuel : nat) (email password : string)
  (s : State) (r : Response.t) (body : value) :
  transport (sent s) (login_request (self s) email password) = Resp r ->
  Response.ok r = true ->
  Response.status_code r <> 204 ->
  Response.text r <> "" ->
  Response.json r = Response.Decoded body ->
  py_getitem body "accessToken" = inr (VStr "A") ->
  py_getitem body "refreshToken" = inr (VStr "R") ->
  (set_tokens tokens s0
   = (observer_outcome (self s0) tokens tt,
      mkState
        (with_tokens (self s0)
           (types.access_token tokens) (types.refresh_token tokens))
        (sent s0)
        (notified s0 ++ match on_token_refresh (self s0) with
                        | Some _ => [tokens]
                        | None => []
                        end)))
  /\ (let pair := types.mkAuthTokens (VStr "A") (VStr "R") in
      let s' := snd (login transport (S fuel) email password s) in
      fst (login transport (S fuel) email password s)
      = observer_outcome (self s) pair body
      /\ access_token (self s') = VStr "A"
      /\ refresh_token (self s') = VStr "R"
      /\ fst (_get_headers s')
         = Return [("Content-Type", "application/json");
                   ("Authorization", "Bearer A")]).
Proof.
  intros Hr Hok H204 Htext Hjson Ha Hrt. split; [apply set_tokens_eq|].
  assert (Hreq : _request transport (S fuel) "POST" "/api/auth/login"
                   (Some (VDict [("email", VStr email);
                                 ("password", VStr password)])) None true s
                 = (Return body, push s (login_request (self s) email password))).
  { rewrite request_not_retried.
    - unfold single_shot. fold (login_request (self s) email password).
      rewrite Hr. unfold finish, Response.content_empty.
      rewrite Hok, Hjson.
      apply Z.eqb_neq in H204. apply String.eqb_neq in Htext.
      rewrite H204, Htext. reflexivity.
    - unfold enters_retry. fold (login_request (self s) email password).
      rewrite Hr.
      destruct (Response.status_code r =? 401) eqn:E; [|reflexivity].
      apply Z.eqb_eq in E. unfold Response.ok in Hok. rewrite E in Hok.
      discriminate Hok. }
  assert (Hlogin : login transport (S fuel) email password s
                   = (observer_outcome (self s)
                        (types.mkAuthTokens (VStr "A") (VStr "R")) body,
                      snd (set_tokens (types.mkAuthTokens (VStr "A") (VStr "R"))
                             (push s (login_request (self s) email password))))).
  { unfold login, bind, lift.
    rewrite Hreq, Ha. unfold ret at 1. rewrite Hrt. unfold ret at 1.
    rewrite set_tokens_eq. unfold observer_outcome, ret. cbn [self push snd].
    destruct (on_token_refresh (self s)) as [f|]; [|reflexivity].
    destruct (f _); reflexivity. }
  cbv zeta. rewrite Hlogin, set_tokens_eq. cbn [fst snd self push].
  rewrite get_headers_eq. repeat split.
Qed.

Lemma set_tokens_commits_pair_witness :
  fst (_get_headers
         (snd (login login_server 1 "admin@example.com" "password123"
                 (start fresh_client))))
  = Return [("Content-Type", "application/json"); ("Authorization", "Bearer A")].
Proof.
  exact (proj2 (proj2 (proj2 (proj2
           (set_tokens_commits_pair
              (types.mkAuthTokens (VStr "A") (VStr "R")) (start fresh_client)
              login_server 0 "admin@example.com" "password123"
              (start fresh_client) (token_response "A" "R")
              (VDict [("accessToken", VStr "A"); ("refreshToken", VStr "R")])
              eq_refl eq_refl ltac:(discriminate) ltac:(discriminate)
              eq_refl eq_refl eq_refl))))).
Defined.

(** ** Logging out *)

(** C10, refuted as worded.  The client holds a pair and the server
    answers 401 to everything: [logout] raises, and both tokens are gone,
    cleared when the refresh cycle it triggered failed. *)
Lemma failed_logout_counterexample :
  let '(out, s') := logout (always unauthorized) 3 (start logged_in_client) in
  out = Raise (APIError (mkError Authentication (VStr "Unauthorized")
                           (Some 401) VNone))
  /\ refresh_token (self (start logged_in_client)) = VStr "R0"
  /\ access_token (self s') = VNone
  /\ refresh_token (self s') = VNone
  /\ self s' <> self (start logged_in_client).
Proof.
  cbv beta iota zeta.
  repeat split. vm_compute. discriminate.
Qed.

(** C10, amended.  Without a refresh token, [logout] sends nothing and
    leaves both tokens absent.  With one, its first request is the
    logout request.  If the transport fails on that request, or it is
    answered by a response other than a 401 that [_request] turns into
    an error, [logout] raises exactly that error, with that one request
    sent and the client, both tokens included, unchanged; if the answer
    is a success, [logout] returns with both tokens cleared.  (A 401
    starts a refresh cycle, about which nothing is said here.)  Each part
    holds for every state and every answer of the transport. *)
Theorem logout_behaviour (transport : Transport) (fuel : nat) :
  (forall s : State,
     truthy (refresh_token (self s)) = false ->
     logout transport fuel s = (Return tt, cleared s))
  /\ (forall s : State,
        truthy (refresh_token (self s)) = true ->
        exists tail : list Request.t,
          sent (snd (logout transport (S (S (S fuel))) s))
          = (sent s ++ logout_request (self s) :: tail)%list)
  /\ (forall (s : State) (msg : string),
        truthy (refresh_token (self s)) = true ->
        transport (sent s) (logout_request (self s)) = Fail msg ->
        logout transport (S fuel) s
        = (Raise (request_failed msg), push s (logout_request (self s))))
  /\ (forall (s : State) (r : Response.t) (e : exn),
        truthy (refresh_token (self s)) = true ->
        transport (sent s) (logout_request (self s)) = Resp r ->
        Response.status_code r <> 401 ->
        outcome_by_status r = Raise e ->
        logout transport (S fuel) s
        = (Raise e, push s (logout_request (self s))))
  /\ (forall (s : State) (r : Response.t) (v : value),
        truthy (refresh_token (self s)) = true ->
        transport (sent s) (logout_request (self s)) = Resp r ->
        Response.status_code r <> 401 ->
        outcome_by_status r = Return v ->
        logout transport (S fuel) s
        = (Return tt, cleared (push s (logout_request (self s))))).
Proof.
  assert (Hone : forall (s : State),
            truthy (refresh_token (self s)) = true ->
            enters_retry transport "POST" "/api/auth/logout"
              (Some (VDict [("refreshToken", refresh_token (self s))])) None
              true s = false ->
            logout transport (S fuel) s
            = match single_shot transport "POST" "/api/auth/logout"
                      (Some (VDict [("refreshToken", refresh_token (self s))]))
                      None s with
              | (Return _, s1) => (Return tt, cleared s1)
              | (Raise e, s1) => (Raise e, s1)
              | (OutOfFuel, s1) => (OutOfFuel, s1)
              end).
  { intros s Htok Hno.
    unfold logout. unfold bind at 1. unfold get_self at 1. rewrite Htok.
    unfold bind at 1. unfold bind at 1.
    rewrite request_not_retried by exact Hno.
    destruct (single_shot transport _ _ _ _ s) as [[v|e|] s1]; reflexivity. }
  split; [|split; [|split; [|split]]].
  - intros s Habsent.
    unfold logout, bind, get_self. rewrite Habsent. reflexivity.
  - intros s Htok.
    unfold logout. unfold bind at 1. unfold get_self at 1. rewrite Htok.
    unfold bind at 1. unfold bind at 1. rewrite request_eq.
    destruct (dispatch_traffic transport "POST" "/api/auth/logout"
                (Some (VDict [("refreshToken", refresh_token (self s))]))
                None true s) as (tail & Hsent & _).
    fold (logout_request (self s)) in Hsent.
    exists tail.
    destruct (dispatch transport _ _ _ _ _ s) as [[v|e|] s1];
      cbn [snd] in *; exact Hsent.
  - intros s msg Htok Hfail.
    rewrite Hone; [|exact Htok|].
    + unfold single_shot. fold (logout_request (self s)).
      rewrite Hfail. reflexivity.
    + unfold enters_retry. fold (logout_request (self s)).
      rewrite Hfail. reflexivity.
  - intros s r e Htok Hr H401 Hout.
    rewrite Hone; [|exact Htok|].
    + unfold single_shot. fold (logout_request (self s)).
      rewrite Hr, finish_by_status, Hout. reflexivity.
    + unfold enters_retry. fold (logout_request (self s)).
      rewrite Hr. apply Z.eqb_neq in H401. rewrite H401. reflexivity.
  - intros s r v Htok Hr H401 Hout.
    rewrite Hone; [|exact Htok|].
    + unfold single_shot. fold (logout_request (self s)).
      rewrite Hr, finish_by_status, Hout. reflexivity.
    + unfold enters_retry. fold (logout_request (self s)).
      rewrite Hr. apply Z.eqb_neq in H401. rewrite H401. reflexivity.
Qed.

Lemma logout_behaviour_witness :
  logout (always forbidden) 0 (start fresh_client)
  = (Return tt, cleared (start fresh_client))
  /\ logout unreachable 1 (start logged_in_client)
     = (Raise (request_failed "Connection refused"),
        push (start logged_in_client) (logout_request logged_in_client))
  /\ logout (always forbidden) 1 (start logged_in_client)
     = (Raise (APIError (mkError Generic (VStr "Forbidden") (Some 403) VNone)),
        push (start logged_in_client) (logout_request logged_in_client))
  /\ logout (always no_content) 1 (start logged_in_client)
     = (Return tt,
        cleared (push (start logged_in_client)
                   (logout_request logged_in_client))).
Proof.
  split; [|split; [|split]].
  - exact (proj1 (logout_behaviour (always forbidden) 0)
             (start fresh_client) eq_refl).
  - exact (proj1 (proj2 (proj2 (logout_behaviour unreachable 0)))
             (start logged_in_client) "Connection refused" eq_refl eq_refl).
  - exact (proj1 (proj2 (proj2 (proj2 (logout_behaviour (always forbidden) 0))))
             (start logged_in_client) forbidden
             (APIError (classify forbidden))
             eq_refl eq_refl ltac:(discriminate) eq_refl).
  - exact (proj2 (proj2 (proj2 (proj2 (logout_behaviour (always no_content) 0))))
             (start logged_in_client) no_content VNone
             eq_refl eq_refl ltac:(discriminate) eq_refl).
Defined.

(** * Further properties of the client *)

(** ** The unauthorized-retry path when the refresh succeeds *)

Section Retry.

Variable transport : Transport.

(** A refresh cycle whose request is answered with a token pair commits
    it; its outcome is the observer's. *)
Lemma refresh_cycle_commits (s : State) (r : Response.t) (body : value)
  (tokens : types.AuthTokens) :
  truthy (refresh_token (self s)) = true ->
  transport (sent s) (refresh_request (self s)) = Resp r ->
  finish r = Return body ->
  tokens_of body = inr tokens ->
  refresh_cycle transport s
  = (observer_outcome (self s) tokens tt,
     committed tokens (push s (refresh_request (self s)))).
Proof.
  intros Htok Hr Hfin Hpair.
  unfold refresh_cycle. rewrite Htok. cbn [negb].
  unfold single_shot. fold (refresh_request (self s)).
  rewrite Hr, Hfin, Hpair, set_tokens_eq. reflexivity.
Qed.

End Retry.

(** X1.  A call whose first answer is 401, with a refresh token at hand,
    a refresh answered by a token pair and an observer that returns (or
    none): the request is sent again once, with the URL, body and query
    of the first attempt and headers built from the new access token; the
    call's outcome is that of the resent response, and the client holds
    the new pair. *)
Theorem refresh_then_resend (transport : Transport) (fuel : nat)
  (method endpoint : string) (data params : option value) (s : State)
  (r1 r_refresh r2 : Response.t) (body : value) (tokens : types.AuthTokens) :
  transport (sent s) (request_of (self s) method endpoint data params) = Resp r1 ->
  Response.status_code r1 = 401 ->
  truthy (refresh_token (self s)) = true ->
  transport (sent s ++ [request_of (self s) method endpoint data params])%list
    (refresh_request (self s)) = Resp r_refresh ->
  finish r_refresh = Return body ->
  tokens_of body = inr tokens ->
  observer_outcome (self s) tokens tt = Return tt ->
  transport
    (sent (after_refresh s (request_of (self s) method endpoint data params) tokens))
    (resend_of (request_of (self s) method endpoint data params)
       (with_tokens (self s) (types.access_token tokens)
          (types.refresh_token tokens))) = Resp r2 ->
  _request transport (S (S (S fuel))) method endpoint data params true s
  = (finish r2,
     push (after_refresh s (request_of (self s) method endpoint data params) tokens)
       (resend_of (request_of (self s) method endpoint data params)
          (with_tokens (self s) (types.access_token tokens)
             (types.refresh_token tokens)))).
Proof.
  intros Hr1 H401 Htok Href Hfin Hpair Hobs Hr2.
  rewrite request_eq. unfold dispatch.
  rewrite Hr1, H401, Htok. cbn [Z.eqb Pos.eqb andb].
  rewrite (refresh_cycle_commits transport
             (push s (request_of (self s) method endpoint data params))
             r_refresh body tokens Htok Href Hfin Hpair).
  cbn [self push]. rewrite Hobs.
  fold (after_refresh s (request_of (self s) method endpoint data params) tokens).
  change (self (after_refresh s (request_of (self s) method endpoint data params)
                  tokens))
    with (with_tokens (self s) (types.access_token tokens)
            (types.refresh_token tokens)).
  rewrite Hr2. reflexivity.
Qed.

Lemma refresh_then_resend_witness :
  let '(out, s') := _request expires_once 3 "GET" "/api/users" None None true
                      (start logged_in_client) in
  out = Return (VDict [])
  /\ access_token (self s') = VStr "A1"
  /\ refresh_token (self s') = VStr "R1"
  /\ map Request.headers (sent s')
     = [[("Content-Type", "application/json"); ("Authorization", "Bearer A0")];
        [("Content-Type", "application/json"); ("Authorization", "Bearer A0")];
        [("Content-Type", "application/json"); ("Authorization", "Bearer A1")]].
Proof.
  rewrite (refresh_then_resend expires_once 0 "GET" "/api/users" None None
             (start logged_in_client) unauthorized (token_response "A1" "R1")
             (Response.mk 200 "{}" (Response.Decoded (VDict [])))
             (VDict [("accessToken", VStr "A1"); ("refreshToken", VStr "R1")])
             (types.mkAuthTokens (VStr "A1") (VStr "R1"))
             eq_refl eq_refl eq_refl eq_refl eq_refl eq_refl eq_refl eq_refl).
  repeat split.
Defined.

(** X2.  Same path, but the transport fails on the resend: the caller
    gets the Generic "Request failed" error, and both tokens are cleared
    although the refresh had just succeeded and the observer had been
    given the new pair. *)
Theorem resend_failure_clears_refreshed_tokens (transport : Transport)
  (fuel : nat) (method endpoint : string) (data params : option value)
  (s : State) (r1 r_refresh : Response.t) (body : value)
  (tokens : types.AuthTokens) (msg : string) :
  transport (sent s) (request_of (self s) method endpoint data params) = Resp r1 ->
  Response.status_code r1 = 401 ->
  truthy (refresh_token (self s)) = true ->
  transport (sent s ++ [request_of (self s) method endpoint data params])%list
    (refresh_request (self s)) = Resp r_refresh ->
  finish r_refresh = Return body ->
  tokens_of body = inr tokens ->
  observer_outcome (self s) tokens tt = Return tt ->
  transport
    (sent (after_refresh s (request_of (self s) method endpoint data params) tokens))
    (resend_of (request_of (self s) method endpoint data params)
       (with_tokens (self s) (types.access_token tokens)
          (types.refresh_token tokens))) = Fail msg ->
  _request transport (S (S (S fuel))) method endpoint data params true s
  = (Raise (request_failed msg),
     cleared
       (push (after_refresh s (request_of (self s) method endpoint data params)
                tokens)
          (resend_of (request_of (self s) method endpoint data params)
             (with_tokens (self s) (types.access_token tokens)
                (types.refresh_token tokens))))).
Proof.
  intros Hr1 H401 Htok Href Hfin Hpair Hobs Hr2.
  rewrite request_eq. unfold dispatch.
  rewrite Hr1, H401, Htok. cbn [Z.eqb Pos.eqb andb].
  rewrite (refresh_cycle_commits transport
             (push s (request_of (self s) method endpoint data params))
             r_refresh body tokens Htok Href Hfin Hpair).
  cbn [self push]. rewrite Hobs.
  fold (after_refresh s (request_of (self s) method endpoint data params) tokens).
  change (self (after_refresh s (request_of (self s) method endpoint data params)
                  tokens))
    with (with_tokens (self s) (types.access_token tokens)
            (types.refresh_token tokens)).
  rewrite Hr2. reflexivity.
Qed.

Lemma resend_failure_clears_refreshed_tokens_witness :
  let '(out, s') := _request drops_after_refresh 3 "GET" "/api/users" None None true
                      (start logged_in_client) in
  out = Raise (request_failed "Connection reset by peer")
  /\ access_token (self s') = VNone
  /\ refresh_token (self s') = VNone
  /\ length (sent s') = 3%nat.
Proof.
  rewrite (resend_failure_clears_refreshed_tokens drops_after_refresh 0
             "GET" "/api/users" None None
             (start logged_in_client) unauthorized (token_response "A1" "R1")
             (VDict [("accessToken", VStr "A1"); ("refreshToken", VStr "R1")])
             (types.mkAuthTokens (VStr "A1") (VStr "R1"))
             "Connection reset by peer"
             eq_refl eq_refl eq_refl eq_refl eq_refl eq_refl eq_refl eq_refl).
  repeat split.
Defined.

(** X3.  Same path, but the observer raises when it is handed the new
    pair: the request is not sent again, the caller gets the observer's
    exception (a [RequestException] wrapped as "Request failed"), and
    both tokens are cleared. *)
Theorem observer_failure_aborts_retry (transport : Transport)
  (fuel : nat) (method endpoint : string) (data params : option value)
  (s : State) (r1 r_refresh : Response.t) (body : value)
  (tokens : types.AuthTokens) (e : exn) :
  transport (sent s) (request_of (self s) method endpoint data params) = Resp r1 ->
  Response.status_code r1 = 401 ->
  truthy (refresh_token (self s)) = true ->
  transport (sent s ++ [request_of (self s) method endpoint data params])%list
    (refresh_request (self s)) = Resp r_refresh ->
  finish r_refresh = Return body ->
  tokens_of body = inr tokens ->
  observer_outcome (self s) tokens tt = Raise e ->
  _request transport (S (S (S fuel))) method endpoint data params true s
  = (Raise (wrap e),
     cleared (after_refresh s (request_of (self s) method endpoint data params)
                tokens)).
Proof.
  intros Hr1 H401 Htok Href Hfin Hpair Hobs.
  rewrite request_eq. unfold dispatch.
  rewrite Hr1, H401, Htok. cbn [Z.eqb Pos.eqb andb].
  rewrite (refresh_cycle_commits transport
             (push s (request_of (self s) method endpoint data params))
             r_refresh body tokens Htok Href Hfin Hpair).
  cbn [self push]. rewrite Hobs. reflexivity.
Qed.

Lemma observer_failure_aborts_retry_witness :
  let '(out, s') := _request expires_once 3 "GET" "/api/users" None None true
                      (start observed_client) in
  out = Raise (KeyError "store")
  /\ access_token (self s') = VNone
  /\ refresh_token (self s') = VNone
  /\ length (sent s') = 2%nat
  /\ notified s' = [types.mkAuthTokens (VStr "A1") (VStr "R1")].
Proof.
  rewrite (observer_failure_aborts_retry expires_once 0 "GET" "/api/users"
             None None
             (start observed_client) unauthorized (token_response "A1" "R1")
             (VDict [("accessToken", VStr "A1"); ("refreshToken", VStr "R1")])
             (types.mkAuthTokens (VStr "A1") (VStr "R1")) (KeyError "store")
             eq_refl eq_refl eq_refl eq_refl eq_refl eq_refl eq_refl).
  repeat split.
Defined.

(** ** Calls that do not enter the retry path *)

(** X4.  When the transport fails on the first request (connection
    error, timeout, transport retries exhausted), the call raises the
    Generic error "Request failed: <message>", which carries neither a
    status code nor details; one request was attempted and the client,
    tokens included, is as before, whatever [retry_on_401] says. *)
Theorem transport_failure_is_generic (transport : Transport) (fuel : nat)
  (method endpoint : string) (data params : option value) (retry_on_401 : bool)
  (s : State) (msg : string) :
  transport (sent s) (request_of (self s) method endpoint data params) = Fail msg ->
  _request transport (S fuel) method endpoint data params retry_on_401 s
  = (Raise (APIError (mkError Generic (VStr ("Request failed: " ++ msg))
                        None VNone)),
     push s (request_of (self s) method endpoint data params)).
Proof.
  intros Hfail.
  rewrite request_not_retried by (unfold enters_retry; rewrite Hfail; reflexivity).
  unfold single_shot. rewrite Hfail. reflexivity.
Qed.

Lemma transport_failure_is_generic_witness :
  _request unreachable 1 "GET" "/api/users" None None true (start logged_in_client)
  = (Raise (APIError (mkError Generic
                        (VStr "Request failed: Connection refused") None VNone)),
     push (start logged_in_client)
       (request_of logged_in_client "GET" "/api/users" None None)).
Proof.
  exact (transport_failure_is_generic unreachable 0 "GET" "/api/users" None None
           true (start logged_in_client) "Connection refused" eq_refl).
Defined.

(** X5.  A call made with [retry_on_401] off, or whose first answer is
    not a 401, sends that one request and leaves the client and the
    observer alone: no refresh, no clearing, whether it returns or
    raises. *)
Theorem session_untouched_without_401 (transport : Transport) (fuel : nat)
  (method endpoint : string) (data params : option value) (retry_on_401 : bool)
  (s : State) :
  (retry_on_401 = false
   \/ forall r : Response.t,
        transport (sent s) (request_of (self s) method endpoint data params)
        = Resp r ->
        Response.status_code r <> 401) ->
  snd (_request transport (S fuel) method endpoint data params retry_on_401 s)
  = push s (request_of (self s) method endpoint data params).
Proof.
  intros Hno.
  rewrite request_not_retried; [apply single_shot_state|].
  unfold enters_retry.
  destruct (transport (sent s) _) as [r|msg]; [|reflexivity].
  destruct Hno as [-> | Hno].
  - rewrite andb_false_r. reflexivity.
  - specialize (Hno r eq_refl). apply Z.eqb_neq in Hno. rewrite Hno. reflexivity.
Qed.

Lemma session_untouched_without_401_witness :
  snd (_request (always server_error) 1 "GET" "/api/users" None None true
         (start logged_in_client))
  = push (start logged_in_client)
      (request_of logged_in_client "GET" "/api/users" None None).
Proof.
  apply (session_untouched_without_401 (always server_error) 0 "GET" "/api/users"
           None None true (start logged_in_client)).
  right. intros r Hr. inversion Hr; subst r. cbn. discriminate.
Defined.

(** ** The refresh cycle on its own *)

(** X6.  A refresh cycle that raises has not touched the tokens, unless
    what it raises is the observer's exception, raised after the new pair
    was committed: the refresh cycle never clears credentials itself. *)
Theorem refresh_failure_keeps_tokens (transport : Transport) (fuel : nat)
  (s s' : State) (e : exn) :
  _refresh_access_token transport (S (S fuel)) s = (Raise e, s') ->
  (self s' = self s /\ notified s' = notified s)
  \/ exists tokens : types.AuthTokens,
       observer_outcome (self s) tokens tt = Raise e
       /\ s' = committed tokens (push s (refresh_request (self s))).
Proof.
  rewrite refresh_access_token_eq. unfold refresh_cycle.
  destruct (truthy (refresh_token (self s))); cbn [negb].
  - unfold single_shot. fold (refresh_request (self s)).
    destruct (transport (sent s) (refresh_request (self s))) as [r|msg].
    + destruct (finish r) as [result|e1|].
      * destruct (tokens_of result) as [e1|tokens].
        -- intros H; inversion H; subst. left. split; reflexivity.
        -- rewrite set_tokens_eq. intros H. injection H as Hout Hstate.
           subst s'. right. exists tokens. split; [exact Hout|reflexivity].
      * intros H; inversion H; subst. left. split; reflexivity.
      * discriminate.
    + intros H; inversion H; subst. left. split; reflexivity.
  - intros H; inversion H; subst. left. split; reflexivity.
Qed.

Lemma refresh_failure_keeps_tokens_witness :
  (self (push (start logged_in_client) (refresh_request logged_in_client))
   = self (start logged_in_client)
   /\ notified (push (start logged_in_client) (refresh_request logged_in_client))
      = notified (start logged_in_client))
  \/ exists tokens : types.AuthTokens,
       observer_outcome (self (start logged_in_client)) tokens tt
       = Raise (APIError (classify unauthorized))
       /\ push (start logged_in_client) (refresh_request logged_in_client)
          = committed tokens
              (push (start logged_in_client)
                 (refresh_request (self (start logged_in_client)))).
Proof.
  exact (refresh_failure_keeps_tokens (always unauthorized) 0
           (start logged_in_client)
           (push (start logged_in_client) (refresh_request logged_in_client))
           (APIError (classify unauthorized)) eq_refl).
Defined.

(** X7.  A refresh cycle that returns has sent exactly one request, the
    POST to /api/auth/refresh carrying the old refresh token, got a
    success response whose body holds both token fields, and committed
    exactly that pair (notifying the observer). *)
Theorem refresh_success_commits_response (transport : Transport) (fuel : nat)
  (s s' : State) :
  _refresh_access_token transport (S (S fuel)) s = (Return tt, s') ->
  exists (r : Response.t) (body : value) (tokens : types.AuthTokens),
    transport (sent s) (refresh_request (self s)) = Resp r
    /\ finish r = Return body
    /\ tokens_of body = inr tokens
    /\ s' = committed tokens (push s (refresh_request (self s))).
Proof.
  rewrite refresh_access_token_eq. unfold refresh_cycle.
  destruct (truthy (refresh_token (self s))); cbn [negb]; [|discriminate].
  unfold single_shot. fold (refresh_request (self s)).
  destruct (transport (sent s) (refresh_request (self s))) as [r|msg];
    [|discriminate].
  destruct (finish r) as [result|e1|] eqn:Hfin; try discriminate.
  destruct (tokens_of result) as [e1|tokens] eqn:Hpair; [discriminate|].
  rewrite set_tokens_eq. intros H. injection H as _ Hstate. subst s'.
  exists r, result, tokens. repeat split; assumption.
Qed.

Lemma refresh_success_commits_response_witness :
  exists (r : Response.t) (body : value) (tokens : types.AuthTokens),
    login_server (sent (start logged_in_client)) (refresh_request logged_in_client)
    = Resp r
    /\ finish r = Return body
    /\ tokens_of body = inr tokens
    /\ snd (_refresh_access_token login_server 2 (start logged_in_client))
       = committed tokens
           (push (start logged_in_client) (refresh_request logged_in_client)).
Proof.
  exact (refresh_success_commits_response login_server 0
           (start logged_in_client) _ eq_refl).
Defined.

(** X8.  One logical call hands the observer at most one pair: what the
    observer has seen after the call is what it had seen before, possibly
    followed by one new pair. *)
Theorem observer_called_at_most_once (transport : Transport) (fuel : nat)
  (method endpoint : string) (data params : option value) (retry_on_401 : bool)
  (s : State) :
  notified (snd (_request transport (S (S (S fuel))) method endpoint data params
                   retry_on_401 s)) = notified s
  \/ exists tokens : types.AuthTokens,
       notified (snd (_request transport (S (S (S fuel))) method endpoint
                        data params retry_on_401 s))
       = (notified s ++ [tokens])%list.
Proof.
  rewrite request_eq. unfold dispatch.
  set (req := request_of (self s) method endpoint data params).
  destruct (transport (sent s) req) as [r|msg]; [|left; reflexivity].
  destruct (_ && _ && _); [|left; reflexivity].
  assert (Hn : notified (snd (refresh_cycle transport (push s req))) = notified s
               \/ exists tokens,
                    notified (snd (refresh_cycle transport (push s req)))
                    = (notified s ++ [tokens])%list).
  { destruct (refresh_cycle_state transport (push s req))
      as [-> | [-> | (r0 & v & tokens & _ & _ & _ & ->)]];
      [left; reflexivity | left; reflexivity |].
    rewrite set_tokens_state. cbn [notified push self].
    destruct (on_token_refresh (self s)).
    - right. exists tokens. reflexivity.
    - left. apply app_nil_r. }
  destruct (refresh_cycle transport (push s req)) as [[[]|e|] s2];
    cbn [snd] in Hn.
  - destruct (transport (sent s2) (resend_of req (self s2))); exact Hn.
  - exact Hn.
  - exact Hn.
Qed.

(** ** Logging in and signing up *)

Section Credentials.

Variable transport : Transport.

(** [login] once its request has been answered without a retry. *)
Lemma login_after_answer (fuel : nat) (email password : string) (s : State)
  (r : Response.t) (result : value) :
  transport (sent s) (login_request (self s) email password) = Resp r ->
  finish r = Return result ->
  login transport (S fuel) email password s
  = match tokens_of result with
    | inl e => (Raise e, push s (login_request (self s) email password))
    | inr tokens =>
        (observer_outcome (self s) tokens result,
         committed tokens (push s (login_request (self s) email password)))
    end.
Proof.
  intros Hr Hfin.
  assert (Hreq : _request transport (S fuel) "POST" "/api/auth/login"
                   (Some (VDict [("email", VStr email);
                                 ("password", VStr password)])) None true s
                 = (Return result, push s (login_request (self s) email password))).
  { rewrite request_not_retried.
    - unfold single_shot. fold (login_request (self s) email password).
      rewrite Hr, Hfin. reflexivity.
    - unfold enters_retry. fold (login_request (self s) email password).
      rewrite Hr. unfold finish in Hfin.
      destruct (Response.status_code r =? 401) eqn:E; [|reflexivity].
      apply Z.eqb_eq in E. unfold Response.ok in Hfin. rewrite E in Hfin.
      discriminate Hfin. }
  unfold login, bind, lift. rewrite Hreq. unfold tokens_of.
  destruct (py_getitem result "accessToken") as [e|a]; [reflexivity|].
  unfold ret at 1.
  destruct (py_getitem result "refreshToken") as [e|rt]; [reflexivity|].
  unfold ret at 1. rewrite set_tokens_eq.
  unfold observer_outcome, ret, committed. cbn [self push].
  destruct (on_token_refresh (self s)) as [f|]; [|reflexivity].
  destruct (f _); reflexivity.
Qed.

End Credentials.

(** X9.  On a client without a refresh token and without an observer,
    a login either returns a body and has committed the pair read from
    that body, or raises and has changed nothing in the client: no token
    is ever set on the way to a failure. *)
Theorem login_all_or_nothing (transport : Transport) (fuel : nat)
  (email password : string) (s : State) :
  truthy (refresh_token (self s)) = false ->
  on_token_refresh (self s) = None ->
  match login transport (S fuel) email password s with
  | (Return body, s') =>
      exists tokens : types.AuthTokens,
        tokens_of body = inr tokens
        /\ s' = committed tokens (push s (login_request (self s) email password))
  | (Raise e, s') => s' = push s (login_request (self s) email password)
  | (OutOfFuel, _) => False
  end.
Proof.
  intros Htok Hobs.
  destruct (transport (sent s) (login_request (self s) email password))
    as [r|msg] eqn:Hr.
  - destruct (finish r) as [result|e|] eqn:Hfin.
    + rewrite (login_after_answer transport fuel email password s r result Hr Hfin).
      destruct (tokens_of result) as [e|tokens] eqn:Hpair; [reflexivity|].
      unfold observer_outcome. rewrite Hobs. exists tokens. split; [assumption|reflexivity].
    + unfold login, bind. rewrite request_not_retried.
      * unfold single_shot. fold (login_request (self s) email password).
        rewrite Hr, Hfin. reflexivity.
      * unfold enters_retry. fold (login_request (self s) email password).
        rewrite Hr, Htok. apply andb_false_r.
    + exfalso. exact (finish_not_out_of_fuel r Hfin).
  - unfold login, bind. rewrite request_not_retried.
    + unfold single_shot. fold (login_request (self s) email password).
      rewrite Hr. reflexivity.
    + unfold enters_retry. fold (login_request (self s) email password).
      rewrite Hr. reflexivity.
Qed.

Lemma login_all_or_nothing_witness :
  snd (login (always unauthorized) 1 "wrong@example.com" "wrongpassword"
         (start fresh_client))
  = push (start fresh_client)
      (login_request fresh_client "wrong@example.com" "wrongpassword").
Proof.
  exact (login_all_or_nothing (always unauthorized) 0
           "wrong@example.com" "wrongpassword" (start fresh_client)
           eq_refl eq_refl).
Defined.

(** X10.  A login answered with a success status but no body (a 204, or
    an empty body) raises [TypeError], the error of subscripting [None],
    not a typed SDK error; nothing is committed. *)
Theorem login_without_body_raises_TypeError (transport : Transport)
  (fuel : nat) (email password : string) (s : State) (r : Response.t) :
  transport (sent s) (login_request (self s) email password) = Resp r ->
  Response.ok r = true ->
  Response.status_code r = 204 \/ Response.text r = "" ->
  login transport (S fuel) email password s
  = (Raise TypeError, push s (login_request (self s) email password)).
Proof.
  intros Hr Hok Hempty.
  assert (Hfin : finish r = Return VNone).
  { unfold finish, Response.content_empty. rewrite Hok. cbn [negb].
    destruct Hempty as [-> | ->]; [reflexivity|].
    rewrite orb_true_r. reflexivity. }
  rewrite (login_after_answer transport fuel email password s r VNone Hr Hfin).
  reflexivity.
Qed.

Lemma login_without_body_raises_TypeError_witness :
  login (always no_content) 1 "admin@example.com" "password123" (start fresh_client)
  = (Raise TypeError,
     push (start fresh_client)
       (login_request fresh_client "admin@example.com" "password123")).
Proof.
  exact (login_without_body_raises_TypeError (always no_content) 0
           "admin@example.com" "password123" (start fresh_client) no_content
           eq_refl eq_refl (or_introl eq_refl)).
Defined.

(** X11.  A login answered with a JSON object that lacks a token field
    raises [KeyError] naming the first missing field, "accessToken"
    before "refreshToken"; nothing is committed, in particular not the
    access token of a body that has only that one. *)
Theorem login_missing_field_raises_KeyError (transport : Transport)
  (fuel : nat) (email password : string) (s : State) (r : Response.t)
  (d : list (string * value)) :
  transport (sent s) (login_request (self s) email password) = Resp r ->
  Response.ok r = true ->
  Response.status_code r <> 204 ->
  Response.text r <> "" ->
  Response.json r = Response.Decoded (VDict d) ->
  dict_get d "accessToken" = None \/ dict_get d "refreshToken" = None ->
  login transport (S fuel) email password s
  = (Raise (KeyError match dict_get d "accessToken" with
                     | None => "accessToken"
                     | Some _ => "refreshToken"
                     end),
     push s (login_request (self s) email password)).
Proof.
  intros Hr Hok H204 Htext Hjson Hmissing.
  assert (Hfin : finish r = Return (VDict d)).
  { unfold finish, Response.content_empty. rewrite Hok, Hjson.
    apply Z.eqb_neq in H204. apply String.eqb_neq in Htext.
    rewrite H204, Htext. reflexivity. }
  rewrite (login_after_answer transport fuel email password s r (VDict d) Hr Hfin).
  unfold tokens_of, py_getitem.
  destruct (dict_get d "accessToken") as [a|]; [|reflexivity].
  destruct Hmissing as [Ha | Hrt]; [discriminate Ha|].
  rewrite Hrt. reflexivity.
Qed.

Lemma login_missing_field_raises_KeyError_witness :
  login (always (Response.mk 200 "<json>"
                   (Response.Decoded (VDict [("accessToken", VStr "A")]))))
    1 "admin@example.com" "password123" (start fresh_client)
  = (Raise (KeyError "refreshToken"),
     push (start fresh_client)
       (login_request fresh_client "admin@example.com" "password123")).
Proof.
  exact (login_missing_field_raises_KeyError _ 0
           "admin@example.com" "password123" (start fresh_client)
           (Response.mk 200 "<json>"
              (Response.Decoded (VDict [("accessToken", VStr "A")])))
           [("accessToken", VStr "A")]
           eq_refl eq_refl ltac:(discriminate) ltac:(discriminate) eq_refl
           (or_intror eq_refl)).
Defined.

(** X12.  A signup answered with a success response whose body holds
    both token fields sends the four account fields to
    /api/auth/signup-with-org, commits the pair, hands it to the
    observer, and returns the whole body. *)
Theorem signup_commits_pair (transport : Transport) (fuel : nat)
  (name email password organization_name : string) (s : State)
  (r : Response.t) (body : value) (tokens : types.AuthTokens) :
  transport (sent s)
    (signup_request (self s) name email password organization_name) = Resp r ->
  finish r = Return body ->
  tokens_of body = inr tokens ->
  signup transport (S fuel) name email password organization_name s
  = (observer_outcome (self s) tokens body,
     committed tokens
       (push s (signup_request (self s) name email password organization_name))).
Proof.
  intros Hr Hfin Hpair.
  assert (Hreq : _request transport (S fuel) "POST" "/api/auth/signup-with-org"
                   (Some (VDict [("name", VStr name); ("email", VStr email);
                                 ("password", VStr password);
                                 ("organizationName", VStr organization_name)]))
                   None true s
                 = (Return body,
                    push s (signup_request (self s) name email password
                              organization_name))).
  { rewrite request_not_retried.
    - unfold single_shot.
      fold (signup_request (self s) name email password organization_name).
      rewrite Hr, Hfin. reflexivity.
    - unfold enters_retry.
      fold (signup_request (self s) name email password organization_name).
      rewrite Hr. unfold finish in Hfin.
      destruct (Response.status_code r =? 401) eqn:E; [|reflexivity].
      apply Z.eqb_eq in E. unfold Response.ok in Hfin. rewrite E in Hfin.
      discriminate Hfin. }
  unfold signup. cbv zeta. unfold bind, lift. rewrite Hreq.
  unfold tokens_of in Hpair.
  destruct (py_getitem body "accessToken") as [e|a]; [discriminate Hpair|].
  unfold ret at 1.
  destruct (py_getitem body "refreshToken") as [e|rt]; [discriminate Hpair|].
  unfold ret at 1. injection Hpair as <-. rewrite set_tokens_eq.
  unfold observer_outcome, ret, committed. cbn [self push].
  destruct (on_token_refresh (self s)) as [f|]; [|reflexivity].
  destruct (f _); reflexivity.
Qed.

Lemma signup_commits_pair_witness :
  signup login_server 1 "Ada" "ada@example.com" "secret" "Acme" (start fresh_client)
  = (Return (VDict [("accessToken", VStr "A"); ("refreshToken", VStr "R")]),
     committed (types.mkAuthTokens (VStr "A") (VStr "R"))
       (push (start fresh_client)
          (signup_request fresh_client "Ada" "ada@example.com" "secret" "Acme"))).
Proof.
  exact (signup_commits_pair login_server 0 "Ada" "ada@example.com" "secret" "Acme"
           (start fresh_client) (token_response "A" "R")
           (VDict [("accessToken", VStr "A"); ("refreshToken", VStr "R")])
           (types.mkAuthTokens (VStr "A") (VStr "R"))
           eq_refl eq_refl eq_refl).
Defined.

(** ** List queries *)

Section Queries.

Variable transport : Transport.

(** Building the query by conditional assignment gives [limit] followed
    by the filters that are set, in the order of the assignments. *)
Lemma four_filters (limit : Z) (k1 k2 k3 k4 : string) (v1 v2 v3 v4 : value) :
  ("limit" =? k1)%string = false -> ("limit" =? k2)%string = false ->
  ("limit" =? k3)%string = false -> ("limit" =? k4)%string = false ->
  (k1 =? k2)%string = false -> (k1 =? k3)%string = false ->
  (k1 =? k4)%string = false -> (k2 =? k3)%string = false ->
  (k2 =? k4)%string = false -> (k3 =? k4)%string = false ->
  set_if (set_if (set_if (set_if [("limit", VInt limit)] k1 v1) k2 v2) k3 v3) k4 v4
  = query_of limit [(k1, v1); (k2, v2); (k3, v3); (k4, v4)].
Proof.
  intros L1 L2 L3 L4 H12 H13 H14 H23 H24 H34.
  unfold set_if, query_of. cbn [filter snd].
  destruct (truthy v1), (truthy v2), (truthy v3), (truthy v4);
    repeat (progress
              (cbn [dict_set];
               rewrite ?L1, ?L2, ?L3, ?L4, ?H12, ?H13, ?H14, ?H23, ?H24, ?H34));
    reflexivity.
Qed.

Lemma envelope_eq (items_key : string) (res : outcome value * State) :
  (let '(out, s') := res in
   match out with
   | Return result =>
       (items <- lift (py_get result items_key (VList [])) ;;
        pagination <- lift (py_get result "pagination" (VDict [])) ;;
        ret (VDict [("data", items); ("pagination", pagination)]))%py s'
   | Raise e => (Raise e, s')
   | OutOfFuel => (OutOfFuel, s')
   end)
  = enveloped items_key res.
Proof.
  destruct res as [[result|e|] s']; try reflexivity.
  unfold enveloped, envelope, bind, lift, py_get, ret.
  destruct result; try reflexivity.
  destruct (dict_get d items_key), (dict_get d "pagination"); reflexivity.
Qed.

End Queries.

(** C9, refuted as worded.  [list_audits] with station id "s1" and limit
    10 sends the query of exactly [limit] and [stationId], but when the
    answer is a 204 there is no body to take defaults from: the call
    raises [AttributeError] instead of returning a record. *)
Lemma list_audits_no_body_counterexample :
  delivered no_content = true
  /\ (let '(out, s') := list_audits (always no_content) 3
                          (VStr "s1") VNone VNone VNone 10
                          (start logged_in_client) in
      out = Raise AttributeError
      /\ map Request.params (sent s')
         = [Some (VDict [("limit", VInt 10); ("stationId", VStr "s1")])]).
Proof. split; [reflexivity|]. split; reflexivity. Qed.

(** C9, amended.  For every call to [list_audits] with a station id and a
    limit (the other filters absent), whatever the server answers: the
    first request carries the query mapping of exactly [limit] and
    [stationId] (of [limit] alone when the station id is the empty
    string, which counts as absent); when the dispatcher returns a JSON
    object, the result is the record whose [data] is the object's
    "audits" field, the empty list when the object has no such field,
    and whose [pagination] is its "pagination" field, the empty mapping
    when it has none (a field that is there with the value null is
    passed on as it is); when the dispatcher returns anything else (the [None] of a
    204 or of an empty body, an array) the call raises [AttributeError];
    and an error of the dispatcher reaches the caller unchanged. *)
Theorem list_audits_query_and_envelope (transport : Transport) (fuel : nat)
  (station_id : string) (limit : Z) (s : State) :
  list_audits transport (S (S (S fuel))) (VStr station_id) VNone VNone VNone limit s
  = match _request transport (S (S (S fuel))) "GET" "/api/audits" None
            (Some (VDict (("limit", VInt limit)
                          :: if (station_id =? "")%string then []
                             else [("stationId", VStr station_id)])))
            true s with
    | (Return (VDict body), s') =>
        (Return (VDict [("data", match dict_get body "audits" with
                                 | Some audits => audits
                                 | None => VList []
                                 end);
                        ("pagination", match dict_get body "pagination" with
                                       | Some pagination => pagination
                                       | None => VDict []
                                       end)]), s')
    | (Return _, s') => (Raise AttributeError, s')
    | (Raise e, s') => (Raise e, s')
    | (OutOfFuel, s') => (OutOfFuel, s')
    end
  /\ exists tail : list Request.t,
       sent (snd (list_audits transport (S (S (S fuel)))
                    (VStr station_id) VNone VNone VNone limit s))
       = (sent s
          ++ request_of (self s) "GET" "/api/audits" None
               (Some (VDict (("limit", VInt limit)
                             :: if (station_id =? "")%string then []
                                else [("stationId", VStr station_id)])))
          :: tail)%list.
Proof.
  assert (Hquery :
            set_if (set_if (set_if (set_if [("limit", VInt limit)]
                                      "stationId" (VStr station_id))
                              "auditorId" VNone) "status" VNone) "cursor" VNone
            = ("limit", VInt limit)
              :: if (station_id =? "")%string then []
                 else [("stationId", VStr station_id)]).
  { rewrite four_filters by reflexivity.
    unfold query_of. cbn [filter snd truthy].
    destruct (station_id =? "")%string; reflexivity. }
  assert (Heq :
            list_audits transport (S (S (S fuel)))
              (VStr station_id) VNone VNone VNone limit s
            = enveloped "audits"
                (_request transport (S (S (S fuel))) "GET" "/api/audits" None
                   (Some (VDict (("limit", VInt limit)
                                 :: if (station_id =? "")%string then []
                                    else [("stationId", VStr station_id)])))
                   true s)).
  { unfold list_audits. cbv zeta. rewrite Hquery.
    rewrite <- envelope_eq. unfold bind at 1.
    destruct (_request _ _ _ _ _ _ _ s) as [[result|e|] s']; reflexivity. }
  split.
  - rewrite Heq. unfold enveloped, envelope. reflexivity.
  - rewrite Heq, request_eq.
    destruct (dispatch_traffic transport "GET" "/api/audits" None
                (Some (VDict (("limit", VInt limit)
                              :: if (station_id =? "")%string then []
                                 else [("stationId", VStr station_id)])))
                true s) as (tail & Hsent & _).
    exists tail.
    destruct (dispatch transport _ _ _ _ _ s) as [[[]|e|] s'];
      cbn [snd enveloped] in *; exact Hsent.
Qed.

(** X13.  [list_audits], for every combination of filters: the query
    holds [limit] and then exactly those of stationId, auditorId, status
    and cursor whose argument is true in Python's sense ([None] and the
    empty string are left out).  A JSON object as result becomes the
    record of its "audits" (default: empty list) and "pagination"
    (default: empty mapping); any other result, the [None] of a 204
    included, raises [AttributeError]; an error of the dispatcher passes
    through unchanged. *)
Theorem list_audits_characterised (transport : Transport) (fuel : nat)
  (station_id auditor_id status cursor : value) (limit : Z) (s : State) :
  list_audits transport fuel station_id auditor_id status cursor limit s
  = enveloped "audits"
      (_request transport fuel "GET" "/api/audits" None
         (Some (VDict (query_of limit
                         [("stationId", station_id); ("auditorId", auditor_id);
                          ("status", status); ("cursor", cursor)])))
         true s).
Proof.
  unfold list_audits. cbv zeta.
  rewrite four_filters by reflexivity.
  rewrite <- envelope_eq. unfold bind at 1.
  destruct (_request _ _ _ _ _ _ _ s) as [[result|e|] s']; reflexivity.
Qed.

(** X14.  [list_incidents], likewise: [limit] and then those of
    stationId, severity, status and cursor that are set; the record is
    built from "incidents" and "pagination"; a result that is not a JSON
    object raises [AttributeError]. *)
Theorem list_incidents_characterised (transport : Transport) (fuel : nat)
  (station_id severity status cursor : value) (limit : Z) (s : State) :
  list_incidents transport fuel station_id severity status cursor limit s
  = enveloped "incidents"
      (_request transport fuel "GET" "/api/incidents" None
         (Some (VDict (query_of limit
                         [("stationId", station_id); ("severity", severity);
                          ("status", status); ("cursor", cursor)])))
         true s).
Proof.
  unfold list_incidents. cbv zeta.
  rewrite four_filters by reflexivity.
  rewrite <- envelope_eq. unfold bind at 1.
  destruct (_request _ _ _ _ _ _ _ s) as [[result|e|] s']; reflexivity.
Qed.

(** The two characterisations at work: a filter given as the empty
    string is dropped, and a 204 makes the method raise. *)
Example list_audits_no_content :
  let '(out, s') := list_audits (always no_content) 1
                      (VStr "") VNone (VStr "open") VNone 25
                      (start logged_in_client) in
  out = Raise AttributeError
  /\ map Request.params (sent s')
     = [Some (VDict [("limit", VInt 25); ("status", VStr "open")])].
Proof. split; reflexivity. Qed.

(** ** After the credentials are gone *)

(** X15.  A logout that returns leaves both tokens absent, and logging
    out again from there returns at once: no request is sent and the
    state does not change. *)
Theorem logout_is_final (transport : Transport) (fuel fuel' : nat)
  (s s' : State) :
  logout transport fuel s = (Return tt, s') ->
  access_token (self s') = VNone
  /\ refresh_token (self s') = VNone
  /\ logout transport fuel' s' = (Return tt, s').
Proof.
  unfold logout. unfold bind at 1. unfold get_self at 1.
  assert (Hcleared : forall s1 : State,
            clear_tokens s1 = (Return tt, cleared s1)) by reflexivity.
  assert (Hagain : forall s1 : State,
            (c <- get_self ;;
             (if truthy (refresh_token c)
              then _request transport fuel' "POST" "/api/auth/logout"
                     (Some (VDict [("refreshToken", refresh_token c)])) None true ;;
                   ret tt
              else ret tt) ;;
             clear_tokens)%py (cleared s1) = (Return tt, cleared s1)) by reflexivity.
  destruct (truthy (refresh_token (self s))).
  - unfold bind at 1. unfold bind at 1.
    destruct (_request transport fuel _ _ _ _ _ s) as [[v|e|] s1];
      try discriminate.
    unfold ret at 1. rewrite Hcleared. intros H. injection H as <-.
    split; [reflexivity|]. split; [reflexivity|]. apply Hagain.
  - unfold bind at 1. unfold ret at 1. rewrite Hcleared.
    intros H. injection H as <-.
    split; [reflexivity|]. split; [reflexivity|]. apply Hagain.
Qed.

Lemma logout_is_final_witness :
  access_token
    (self (snd (logout (always no_content) 1 (start logged_in_client)))) = VNone
  /\ refresh_token
       (self (snd (logout (always no_content) 1 (start logged_in_client)))) = VNone
  /\ logout (always no_content) 0
       (snd (logout (always no_content) 1 (start logged_in_client)))
     = (Return tt, snd (logout (always no_content) 1 (start logged_in_client))).
Proof.
  exact (logout_is_final (always no_content) 1 0 (start logged_in_client) _ eq_refl).
Defined.

(** X16.  Once the tokens are cleared, a call sends a single request
    whose only header is the content type (no Authorization), and a 401
    answer is not followed by any refresh or resend. *)
Theorem cleared_client_sends_no_credentials (transport : Transport) (fuel : nat)
  (method endpoint : string) (data params : option value) (retry_on_401 : bool)
  (s : State) :
  snd (_request transport (S fuel) method endpoint data params retry_on_401
         (snd (clear_tokens s)))
  = push (snd (clear_tokens s))
      (Request.mk method (base_url (self s) ++ endpoint) data params
         [("Content-Type", "application/json")] (timeout (self s))).
Proof.
  change (snd (clear_tokens s)) with (cleared s).
  rewrite request_not_retried; [apply single_shot_state|].
  unfold enters_retry.
  destruct (transport (sent (cleared s)) _); [|reflexivity].
  apply andb_false_r.
Qed.

(** ** The base URL *)

Section BaseUrl.

Lemma rstrip_slash_no_trailing (s : string) :
  ends_with_slash (rstrip_slash s) = false.
Proof.
  induction s as [|c s IH]; [reflexivity|].
  cbn [rstrip_slash].
  destruct (rstrip_slash s) as [|c' r].
  - destruct (c =? "/")%char eqn:E; [reflexivity|].
    cbn [ends_with_slash]. exact E.
  - exact IH.
Qed.

Lemma rstrip_slash_app_slash (s : string) :
  rstrip_slash (s ++ "/") = rstrip_slash s.
Proof.
  induction s as [|c s IH]; [reflexivity|].
  cbn [String.append rstrip_slash]. rewrite IH. reflexivity.
Qed.

Lemma rstrip_slash_fixed (s : string) :
  ends_with_slash s = false -> rstrip_slash s = s.
Proof.
  induction s as [|c s IH]; [reflexivity|].
  intros Hend. cbn [rstrip_slash].
  destruct s as [|c' s'].
  - cbn [ends_with_slash] in Hend. cbn [rstrip_slash]. rewrite Hend. reflexivity.
  - rewrite IH by exact Hend. reflexivity.
Qed.

End BaseUrl.

(** X17.  The constructor removes every trailing slash of the base URL
    and nothing else: the stored URL never ends with a slash, a URL that
    does not end with one is stored as given, and one more trailing
    slash in the argument builds the same client, so that endpoint paths,
    which start with a slash, are appended without doubling it. *)
Theorem base_url_has_no_trailing_slash (url : string) (token : value)
  (timeout max_retries : Z) (observer : option Observer) :
  ends_with_slash (base_url (__init__ url token timeout max_retries observer))
  = false
  /\ (base_url (__init__ url token timeout max_retries observer) = url
      <-> ends_with_slash url = false)
  /\ __init__ (url ++ "/") token timeout max_retries observer
     = __init__ url token timeout max_retries observer.
Proof.
  unfold __init__. cbn [base_url].
  split; [apply rstrip_slash_no_trailing|]. split.
  - split.
    + intros H. rewrite <- H at 1. apply rstrip_slash_no_trailing.
    + apply rstrip_slash_fixed.
  - rewrite rstrip_slash_app_slash. reflexivity.
Qed.

Example base_url_examples :
  base_url (__init__ "http://localhost:3001///" VNone 30 3 None)
  = "http://localhost:3001"
  /\ base_url (__init__ "http://host/api" VNone 30 3 None) = "http://host/api"
  /\ base_url (__init__ "/" VNone 30 3 None) = "".
Proof. repeat split. Qed.

(** ** Logging out with an expired access token *)

(** X18.  When the logout request is answered 401, the refresh succeeds
    and the resent logout succeeds: the resent request still carries the
    old refresh token in its body (the body is built before the
    refresh), with the new access token in its header; the logout
    returns and the refreshed pair is cleared locally. *)
Theorem logout_resends_old_refresh_token (transport : Transport) (fuel : nat)
  (s : State) (r1 r_refresh r2 : Response.t) (body result : value)
  (tokens : types.AuthTokens) :
  transport (sent s) (logout_request (self s)) = Resp r1 ->
  Response.status_code r1 = 401 ->
  truthy (refresh_token (self s)) = true ->
  transport (sent s ++ [logout_request (self s)])%list
    (refresh_request (self s)) = Resp r_refresh ->
  finish r_refresh = Return body ->
  tokens_of body = inr tokens ->
  observer_outcome (self s) tokens tt = Return tt ->
  transport
    (sent (after_refresh s (logout_request (self s)) tokens))
    (resend_of (logout_request (self s))
       (with_tokens (self s) (types.access_token tokens)
          (types.refresh_token tokens))) = Resp r2 ->
  finish r2 = Return result ->
  logout transport (S (S (S fuel))) s
  = (Return tt,
     cleared
       (push (after_refresh s (logout_request (self s)) tokens)
          (Request.mk "POST" (base_url (self s) ++ "/api/auth/logout")
             (Some (VDict [("refreshToken", refresh_token (self s))])) None
             (headers_of (with_tokens (self s) (types.access_token tokens)
                            (types.refresh_token tokens)))
             (timeout (self s))))).
Proof.
  intros Hr1 H401 Htok Href Hfin Hpair Hobs Hr2 Hfin2.
  unfold logout. unfold bind at 1. unfold get_self at 1. rewrite Htok.
  unfold bind at 1. unfold bind at 1.
  rewrite request_eq. unfold dispatch.
  fold (logout_request (self s)).
  rewrite Hr1, H401, Htok. cbn [Z.eqb Pos.eqb andb].
  rewrite (refresh_cycle_commits transport (push s (logout_request (self s)))
             r_refresh body tokens Htok Href Hfin Hpair).
  cbn [self push]. rewrite Hobs.
  fold (after_refresh s (logout_request (self s)) tokens).
  change (self (after_refresh s (logout_request (self s)) tokens))
    with (with_tokens (self s) (types.access_token tokens)
            (types.refresh_token tokens)).
  rewrite Hr2, Hfin2. reflexivity.
Qed.

Lemma logout_resends_old_refresh_token_witness :
  let '(out, s') := logout expires_once 3 (start logged_in_client) in
  out = Return tt
  /\ map Request.json (sent s')
     = [Some (VDict [("refreshToken", VStr "R0")]);
        Some (VDict [("refreshToken", VStr "R0")]);
        Some (VDict [("refreshToken", VStr "R0")])]
  /\ refresh_token (self s') = VNone.
Proof.
  rewrite (logout_resends_old_refresh_token expires_once 0
             (start logged_in_client) unauthorized (token_response "A1" "R1")
             (Response.mk 200 "{}" (Response.Decoded (VDict [])))
             (VDict [("accessToken", VStr "A1"); ("refreshToken", VStr "R1")])
             (VDict [])
             (types.mkAuthTokens (VStr "A1") (VStr "R1"))
             eq_refl eq_refl eq_refl eq_refl eq_refl eq_refl eq_refl eq_refl
             eq_refl).
  repeat split.
Defined.

(** ** The resource methods as dispatcher calls *)

Section ResourceCalls.

Variable transport : Transport.

Lemma bind_keeps_state {A B} (m : M A) (k : A -> M B) (s : State) :
  (forall (a : A) (s1 : State), snd (k a s1) = s1) ->
  snd (bind m k s) = snd (m s).
Proof.
  intros Hk. unfold bind.
  destruct (m s) as [[a|e|] s1]; [apply Hk | reflexivity | reflexivity].
Qed.

Lemma envelope_keeps_state (items_key : string) (result : value) (s1 : State) :
  snd ((items <- lift (py_get result items_key (VList [])) ;;
        pagination <- lift (py_get result "pagination" (VDict [])) ;;
        ret (VDict [("data", items); ("pagination", pagination)]))%py s1) = s1.
Proof.
  unfold bind, lift, py_get, ret.
  destruct result; try reflexivity.
  destruct (dict_get d items_key), (dict_get d "pagination"); reflexivity.
Qed.

(** Every resource method leaves the state of one dispatcher call, made
    with [retry_on_401] on, a standard verb and a path under /api/. *)
Lemma resource_call_is_request (fuel : nat) (call : resource_call) (s : State) :
  exists (method path : string) (data params : option value),
    is_verb method = true
    /\ perform_resource transport fuel call s
       = snd (_request transport fuel method ("/api/" ++ path) data params true s).
Proof.
  destruct call; cbn [perform_resource];
    try (do 4 eexists; split; [|reflexivity]; reflexivity);
    try (unfold delete_station, delete_audit, delete_incident;
         rewrite bind_keeps_state by reflexivity;
         do 4 eexists; split; [|reflexivity]; reflexivity).
  - unfold list_audits. cbv zeta.
    rewrite bind_keeps_state by (intros; apply envelope_keeps_state).
    do 4 eexists; split; [|reflexivity]; reflexivity.
  - unfold list_incidents. cbv zeta.
    rewrite bind_keeps_state by (intros; apply envelope_keeps_state).
    do 4 eexists; split; [|reflexivity]; reflexivity.
Qed.

End ResourceCalls.

(** X19.  Every resource method (stations, audits, incidents,
    contractors, work permits, users, usage) sends between one and three
    requests, whatever its arguments and whatever the server does; the
    first uses GET, POST, PUT or DELETE on a URL made of the client's base
    URL and a path under /api/, with the client's current headers and
    timeout. *)
Theorem resource_call_traffic (transport : Transport) (fuel : nat)
  (call : resource_call) (s : State) :
  exists (req : Request.t) (tail : list Request.t) (path : string),
    sent (perform_resource transport (S (S (S fuel))) call s)
    = (sent s ++ req :: tail)%list
    /\ (length tail <= 2)%nat
    /\ is_verb (Request.method req) = true
    /\ Request.url req = base_url (self s) ++ "/api/" ++ path
    /\ Request.headers req = headers_of (self s)
    /\ Request.timeout req = timeout (self s).
Proof.
  destruct (resource_call_is_request transport (S (S (S fuel))) call s)
    as (method & path & data & params & Hverb & ->).
  rewrite request_eq.
  destruct (dispatch_traffic transport method ("/api/" ++ path) data params true s)
    as (tail & Hsent & Htail).
  exists (request_of (self s) method ("/api/" ++ path) data params), tail, path.
  split; [exact Hsent|]. split.
  - destruct Htail as [-> | (_ & _ & [-> | (c2 & ->)])]; cbn [length]; lia.
  - repeat split. exact Hverb.
Qed.

(** X20.  Against a server whose token responses never carry exactly
    one null token, every resource method keeps the token pair as it
    should be: both set or both absent before, both set or both absent
    after, whether the method returns or raises. *)
Theorem resource_call_keeps_pair (transport : Transport) (fuel : nat)
  (call : resource_call) (s : State) :
  well_paired transport ->
  consistent (self s) = true ->
  consistent (self (perform_resource transport (S (S (S fuel))) call s)) = true.
Proof.
  intros Hserver Hs.
  destruct (resource_call_is_request transport (S (S (S fuel))) call s)
    as (method & path & data & params & _ & ->).
  rewrite request_eq. apply dispatch_consistent; assumption.
Qed.

Lemma resource_call_keeps_pair_witness :
  consistent
    (self (perform_resource login_server 3 (DeleteAudit (VStr "a1"))
             (start logged_in_client)))
  = true.
Proof.
  exact (resource_call_keeps_pair login_server 0 (DeleteAudit (VStr "a1"))
           (start logged_in_client) login_server_well_paired eq_refl).
Defined.

(** ** A client built around an access token *)

(** X22.  A client constructed with an initial access token and nothing
    else sends that token as "Bearer <token>", and cannot refresh: a 401
    comes back to the caller as the Authentication error of that very
    response after a single request, and the token stays in place. *)
Theorem access_token_only_client_cannot_refresh (transport : Transport)
  (fuel : nat) (url token : string) (seconds max_retries : Z)
  (observer : option Observer)
  (method endpoint : string) (data params : option value) (retry_on_401 : bool)
  (r : Response.t) :
  token <> "" ->
  transport []
    (Request.mk method (rstrip_slash url ++ endpoint) data params
       [("Content-Type", "application/json"); ("Authorization", "Bearer " ++ token)]
       seconds)
  = Resp r ->
  Response.status_code r = 401 ->
  exists e : HSEAPIError,
    _request transport (S fuel) method endpoint data params retry_on_401
      (start (__init__ url (VStr token) seconds max_retries observer))
    = (Raise (APIError e),
       mkState (__init__ url (VStr token) seconds max_retries observer)
         [Request.mk method (rstrip_slash url ++ endpoint) data params
            [("Content-Type", "application/json");
             ("Authorization", "Bearer " ++ token)]
            seconds]
         [])
    /\ kind e = Authentication
    /\ status_code e = Some 401.
Proof.
  intros Htoken Hr H401.
  assert (Hheaders :
            headers_of (__init__ url (VStr token) seconds max_retries observer)
            = [("Content-Type", "application/json");
               ("Authorization", "Bearer " ++ token)]).
  { unfold headers_of, __init__. cbn [access_token truthy].
    apply String.eqb_neq in Htoken. rewrite Htoken. reflexivity. }
  exists (classify r).
  rewrite request_not_retried.
  - unfold single_shot, request_of, start, push. cbn [self sent notified].
    rewrite Hheaders. cbn [base_url __init__ timeout].
    rewrite Hr. unfold finish, Response.ok. rewrite H401.
    cbn [negb Z.leb Z.ltb Z.compare Pos.compare Pos.compare_cont andb].
    split; [reflexivity|].
    unfold classify. destruct (error_message_and_details r).
    cbn [kind status_code]. rewrite H401. split; reflexivity.
  - unfold enters_retry, request_of, start. cbn [self sent].
    rewrite Hheaders. cbn [base_url __init__ timeout].
    rewrite Hr. cbn [refresh_token truthy]. apply andb_false_r.
Qed.

Lemma access_token_only_client_cannot_refresh_witness :
  exists e : HSEAPIError,
    _request (always unauthorized) 1 "GET" "/api/users" None None true
      (start (__init__ "http://localhost:3001/" (VStr "tok") 30 3 None))
    = (Raise (APIError e),
       mkState (__init__ "http://localhost:3001/" (VStr "tok") 30 3 None)
         [Request.mk "GET" (rstrip_slash "http://localhost:3001/" ++ "/api/users")
            None None
            [("Content-Type", "application/json");
             ("Authorization", "Bearer " ++ "tok")]
            30]
         [])
    /\ kind e = Authentication
    /\ status_code e = Some 401.
Proof.
  exact (access_token_only_client_cannot_refresh (always unauthorized) 0
           "http://localhost:3001/" "tok" 30 3 None "GET" "/api/users" None None
           true unauthorized ltac:(discriminate) eq_refl eq_refl).
Defined.
